(** * Robust-Data-Processor: the ingestion gateway and the processing worker

    A shallow embedding of [src/api/main.py] (the FastAPI application that
    serves [POST /ingest]) and of [src/worker/worker.py] (the FastAPI
    application that serves [POST /process]), together with the part of the
    Python runtime and of the FastAPI framework that the two handlers rely
    on.

    Layout: the Python values the handlers manipulate ([Py]), the way FastAPI
    turns the outcome of a handler into an HTTP response ([FastAPI]), the two
    handlers ([Gateway], [Worker]), reference codecs used to run the handlers
    on concrete requests ([Reference]), and then the theorems. *)

From Stdlib Require Import ZArith NArith List Bool Ascii String Strings.Byte.
From Stdlib Require Import Uint63 PrimFloat DecimalString.
From stdpp Require Import base option list gmap.

#[local] Set Warnings "-inexact-float,-register-all".
#[local] Open Scope Z_scope.

(** ** Python values *)

Module Py.

(** A Python [str] is a sequence of Unicode code points, [bytes] a sequence
    of octets. *)
Definition pystr := list N.
Definition bytes := list byte.

(** String literals of the source, written as Rocq strings. *)
Definition py (s : string) : pystr :=
  map N_of_ascii (list_ascii_of_string s).

(** [bytes] literals (ASCII text). *)
Definition ascii_bytes (s : string) : bytes :=
  map byte_of_ascii (list_ascii_of_string s).

(** [s.startswith(p)] *)
Fixpoint startswith (p s : pystr) : bool :=
  match p, s with
  | [], _ => true
  | _ :: _, [] => false
  | a :: p', b :: s' => N.eqb a b && startswith p' s'
  end.

(** [p in s] for two strings: [p] occurs as a substring of [s]. *)
Fixpoint contains (p s : pystr) : bool :=
  startswith p s ||
  match s with
  | [] => false
  | _ :: s' => contains p s'
  end.

(** [str.isspace] on one code point: the characters [str.strip()] removes
    when called without argument. *)
Definition isspace (c : N) : bool :=
  ((9 <=? c) && (c <=? 13) || (28 <=? c) && (c <=? 32)
   || (c =? 133) || (c =? 160) || (c =? 5760)
   || (8192 <=? c) && (c <=? 8202)
   || (c =? 8232) || (c =? 8233) || (c =? 8239) || (c =? 8287)
   || (c =? 12288))%N.

Fixpoint lstrip (s : pystr) : pystr :=
  match s with
  | c :: s' => if isspace c then lstrip s' else s
  | [] => []
  end.

(** [s.strip()] *)
Definition strip (s : pystr) : pystr := rev (lstrip (rev (lstrip s))).

(** [s.replace(old, new)]: every non-overlapping occurrence of [old], found
    from the left, is replaced by [new].  [skip] counts the characters of an
    occurrence already replaced that are still to be passed over. *)
Fixpoint replace_from (old new : pystr) (skip : nat) (s : pystr) : pystr :=
  match s with
  | [] => []
  | c :: rest =>
      match skip with
      | S k => replace_from old new k rest
      | O =>
          if startswith old s
          then new ++ replace_from old new (Nat.pred (length old)) rest
          else c :: replace_from old new O rest
      end
  end.

Definition replace (s old new : pystr) : pystr :=
  match old with
  | [] => new ++ flat_map (fun c => c :: new) s
  | _ :: _ => replace_from old new O s
  end.

(** The values [json.loads] produces.  A [dict] keeps its keys in insertion
    order; [json.loads] never yields the same key twice. *)
Inductive json :=
| JNull
| JBool (b : bool)
| JInt (n : Z)
| JFloat (f : float)
| JStr (s : pystr)
| JList (l : list json)
| JDict (d : list (pystr * json)).

(** Truth value of an object, as tested by [not x] and [if x]. *)
Definition truthy (v : json) : bool :=
  match v with
  | JNull => false
  | JBool b => b
  | JInt n => negb (n =? 0)
  | JFloat f => negb (PrimFloat.eqb f 0%float)
  | JStr s => negb (bool_decide (s = []))
  | JList l => match l with [] => false | _ => true end
  | JDict d => match d with [] => false | _ => true end
  end.

(** Lookup in a [dict]. *)
Fixpoint dict_lookup (k : pystr) (d : list (pystr * json)) : option json :=
  match d with
  | [] => None
  | (k', v) :: d' => if bool_decide (k' = k) then Some v else dict_lookup k d'
  end.

(** [d[k] = v] on a [dict]: the value of an existing key is replaced in
    place, a new key is added at the end. *)
Fixpoint dict_set (k : pystr) (v : json) (d : list (pystr * json))
  : list (pystr * json) :=
  match d with
  | [] => [(k, v)]
  | (k', v') :: d' =>
      if bool_decide (k' = k) then (k, v) :: d'
      else (k', v') :: dict_set k v d'
  end.

(** [v == s] for a string [s]: only an equal [str] compares equal. *)
Definition eq_str (s : pystr) (v : json) : bool :=
  match v with
  | JStr t => bool_decide (t = s)
  | _ => false
  end.

(** The exceptions that can travel through the two handlers. *)
Inductive exn :=
| HTTPException (status_code : Z) (detail : pystr)
| JSONDecodeError
| UnicodeDecodeError
| UnicodeEncodeError
| BinasciiError
| TypeError
| AttributeError
| KeyError
| ValueError
| RecursionError
| NotImplementedError
| GoogleAPICallError.

(** The outcome of evaluating an expression: a value, or a raised
    exception. *)
Inductive result (A : Type) :=
| Ok (a : A)
| Raise (e : exn).
Arguments Ok {A} a.
Arguments Raise {A} e.

Definition rbind {A B} (r : result A) (k : A -> result B) : result B :=
  match r with
  | Ok a => k a
  | Raise e => Raise e
  end.

(** The outcome of a call to a Google Cloud service: its answer, or the
    exception the client library raises when the call fails. *)
Definition service {A} (answer : option A) : result A :=
  match answer with
  | Some a => Ok a
  | None => Raise GoogleAPICallError
  end.

(** [k in v] with a string [k] on the left. *)
Definition py_in (k : pystr) (v : json) : result bool :=
  match v with
  | JDict d => Ok (bool_decide (is_Some (dict_lookup k d)))
  | JList l => Ok (existsb (eq_str k) l)
  | JStr s => Ok (contains k s)
  | _ => Raise TypeError
  end.

(** [v[k]] with a string [k]. *)
Definition py_getitem (v : json) (k : pystr) : result json :=
  match v with
  | JDict d =>
      match dict_lookup k d with
      | Some x => Ok x
      | None => Raise KeyError
      end
  | _ => Raise TypeError
  end.

(** [v.get(k, dflt)]: only a [dict] has the method. *)
Definition py_get (v : json) (k : pystr) (dflt : json) : result json :=
  match v with
  | JDict d => Ok (default dflt (dict_lookup k d))
  | _ => Raise AttributeError
  end.

(** [len(v)] *)
Definition py_len (v : json) : result nat :=
  match v with
  | JStr s => Ok (length s)
  | JList l => Ok (length l)
  | JDict d => Ok (length d)
  | _ => Raise TypeError
  end.

(** [v.strip()] and [v.replace(old, new)]: only a [str] has the methods. *)
Definition py_strip (v : json) : result pystr :=
  match v with
  | JStr s => Ok (strip s)
  | _ => Raise AttributeError
  end.

Definition py_replace (v : json) (old new : pystr) : result pystr :=
  match v with
  | JStr s => Ok (replace s old new)
  | _ => Raise AttributeError
  end.

(** [n * x] for an [int] that is the length of a sequence (below [2^63] in
    CPython) and a [float]: the integer is converted to binary64, then the
    product is the IEEE 754 one. *)
Definition float_of_len (n : nat) : float :=
  PrimFloat.of_uint63 (Uint63.of_Z (Z.of_nat n)).

Definition int_mul_float (n : nat) (x : float) : float :=
  PrimFloat.mul (float_of_len n) x.

(** The library functions the handlers call.  They are not part of the
    repository: the handlers are defined, and the theorems proved, for any
    behaviour of them. *)
Class Lib := {
  (** [json.loads(b)] on [bytes] *)
  json_loads : bytes -> result json;
  (** [json.dumps(v)] *)
  json_dumps : json -> result pystr;
  (** [b.decode("utf-8")] *)
  utf8_decode : bytes -> result pystr;
  (** [s.encode("utf-8")] *)
  utf8_encode : pystr -> result bytes;
  (** [base64.b64decode(v)] *)
  b64decode : json -> result bytes;
  (** [str(e)] *)
  exn_str : exn -> pystr;
  (** whether the framework makes the body of a response out of the
      content a handler returned: [jsonable_encoder] and then
      [JSONResponse.render], which is [json.dumps(content,
      ensure_ascii=False, allow_nan=False, ...)] encoded as UTF-8, raise on
      a float that is not finite, on a string that UTF-8 cannot encode and
      on content that is nested too deep *)
  renders : json -> bool;
  (** whether [print(f"...")] returns, given the values interpolated in the
      text: it raises [UnicodeEncodeError] when the standard output cannot
      encode the line *)
  prints : list json -> bool
}.

(** Handlers run in a state-and-exception monad: the state [W] is what the
    handler can change outside of itself. *)
Definition M (W A : Type) : Type := W -> W * result A.

Definition ret {W A} (a : A) : M W A := fun w => (w, Ok a).
Definition raise {W A} (e : exn) : M W A := fun w => (w, Raise e).
Definition lift {W A} (r : result A) : M W A := fun w => (w, r).
Definition bind {W A B} (m : M W A) (k : A -> M W B) : M W B :=
  fun w =>
    match m w with
    | (w', Ok a) => k a w'
    | (w', Raise e) => (w', Raise e)
    end.

End Py.

Export Py.

Notation "'let*' x ':=' m 'in' k" := (bind m (fun x => k))
  (at level 10, x name, m at level 100, k at level 200,
   format "'[v' 'let*'  x  ':='  m  'in' '/' k ']'").

(** ** FastAPI *)

Module FastAPI.

(** What a path operation function hands back to the framework.  Both
    handlers of the repository end with [return {...}, <int>]: the value
    returned is a Python tuple of a [dict] and an [int]. *)
Definition returned := (json * Z)%type.

Inductive http_body :=
| JsonBody (v : json)
| TextBody (s : pystr).

Record http_response := {
  status : Z;
  body : http_body
}.

(** Status code of a route declared with [@app.post(path)] and no
    [status_code]. *)
Definition default_status_code : Z := 200.

(** [jsonable_encoder] on the returned tuple: a tuple is encoded as a JSON
    array of its encoded items. *)
Definition jsonable_encoder (r : returned) : json :=
  JList [fst r; JInt (snd r)].

(** The response of the server error middleware. *)
Definition server_error : http_response :=
  {| status := 500; body := TextBody (py "Internal Server Error") |}.

(** The response to an exception raised in a route:
    - an [HTTPException] gives its [status_code] and [{"detail": detail}];
    - any other exception is answered by the server error middleware. *)
Definition exception_response (e : exn) : http_response :=
  match e with
  | HTTPException code detail =>
      {| status := code;
         body := JsonBody (JDict [(py "detail", JStr detail)]) |}
  | _ => server_error
  end.

(** The response FastAPI sends for the outcome of a handler, once the value
    returned, if any, has been rendered: the value is the body of a response
    with the status code of the route. *)
Definition respond_rendered (r : result returned) : http_response :=
  match r with
  | Ok v => {| status := default_status_code;
               body := JsonBody (jsonable_encoder v) |}
  | Raise e => exception_response e
  end.

(** The response FastAPI sends for the outcome of a handler.  A returned
    value is encoded and rendered as the body of a [JSONResponse]; the
    rendering runs after the handler has returned, and when it raises the
    request is answered by the server error middleware. *)
Definition respond `{Lib} (r : result returned) : http_response :=
  match r with
  | Ok v =>
      if renders (jsonable_encoder v) then respond_rendered r
      else server_error
  | Raise e => exception_response e
  end.

(** The response to a handler that returns a [dict]: the [dict] is the
    body. *)
Definition respond_dict (v : json) : http_response :=
  {| status := default_status_code; body := JsonBody v |}.

(** A push subscription redelivers a message unless the endpoint answers
    with a success status (102, 200, 201, 202 or 204). *)
Definition acknowledges (r : http_response) : bool :=
  bool_decide (status r ∈ [102; 200; 201; 202; 204]).

End FastAPI.

Export FastAPI.

(** ** The ingestion gateway: [src/api/main.py] *)

Module Gateway.

(** The process environment read when the module is loaded. *)
Record environ := {
  getenv_PROJECT_ID : option pystr;
  getenv_ENVIRONMENT : option pystr
}.

(** [PROJECT_ID = os.getenv("PROJECT_ID", "sasmit-log-processor")] *)
Definition PROJECT_ID (os : environ) : pystr :=
  default (py "sasmit-log-processor") (getenv_PROJECT_ID os).

Definition TOPIC_NAME : pystr := py "log-ingestion".

(** [pubsub_v1.PublisherClient()] *)
Inductive PublisherClient := Client.

(** [publisher] is a client in production and [None] otherwise. *)
Definition publisher (os : environ) : option PublisherClient :=
  if bool_decide (getenv_ENVIRONMENT os = Some (py "production"))
  then Some Client
  else None.

(** [topic_path = publisher.topic_path(PROJECT_ID, TOPIC_NAME)] in
    production, [None] otherwise. *)
Definition topic_path (os : environ) : option pystr :=
  if bool_decide (getenv_ENVIRONMENT os = Some (py "production"))
  then Some (py "projects/" ++ PROJECT_ID os ++ py "/topics/" ++ TOPIC_NAME)
  else None.

(** [GET /] *)
Definition root : json :=
  JDict [(py "status", JStr (py "healthy"));
         (py "service", JStr (py "log-ingestion-api"));
         (py "version", JStr (py "1.0.0"))].

(** [GET /health] *)
Definition health : json := JDict [(py "status", JStr (py "ok"))].

(** The part of an HTTP request the handler reads. *)
Record request := {
  (** the [Content-Type] header, when the request has one *)
  content_type_header : option pystr;
  (** the [X-Tenant-ID] header, when the request has one *)
  x_tenant_id : option pystr;
  (** the raw body *)
  request_body : bytes
}.

(** What the outside world contributes to one call of the handler: the
    identifier [uuid.uuid4()] draws, and the outcome of [future.result()]
    for the message handed to the queue (the message id, or [None] when
    the publish fails and [future.result()] raises). *)
Record call := {
  uuid4 : pystr;
  future_result : option pystr
}.

(** What one call of the handler does to the outside world. *)
Inductive event :=
| Publish (topic : pystr) (data : bytes)
| PrintPublished (message_id : pystr)
| PrintDevMode (tenant_id log_id : json).

Definition emit (e : event) : M (list event) unit :=
  fun w => (w ++ [e], Ok tt).

(** The four variables set by the dispatch on the content type. *)
Record fields := {
  tenant_id : json;
  log_id : json;
  text : json;
  source : json
}.

Section handlers.
Context `{Lib}.

(** Lines 38-64: dispatch on the declared content type. *)
Definition dispatch (c : call) (r : request) : result fields :=
  let content_type := default (py "") (content_type_header r) in
  if contains (py "application/json") content_type then
    rbind
      (match json_loads (request_body r) with
       | Raise JSONDecodeError =>
           Raise (HTTPException 400 (py "Invalid JSON"))
       | other => other
       end)
      (fun data =>
         rbind (py_get data (py "tenant_id") JNull) (fun tenant_id =>
         rbind (py_get data (py "log_id") JNull) (fun log_id =>
         rbind (py_get data (py "text") JNull) (fun text =>
         Ok {| tenant_id := tenant_id; log_id := log_id; text := text;
               source := JStr (py "json") |}))))
  else if contains (py "text/plain") content_type then
    rbind (utf8_decode (request_body r)) (fun text =>
    Ok {| tenant_id := from_option JStr JNull (x_tenant_id r);
          log_id := JStr (uuid4 c);
          text := JStr text;
          source := JStr (py "text_upload") |})
  else
    Raise (HTTPException 415
             (py "Content-Type must be application/json or text/plain")).

(** [not text or text.strip() == ""] *)
Definition text_is_blank (text : json) : result bool :=
  if negb (truthy text) then Ok true
  else rbind (py_strip text) (fun s => Ok (bool_decide (s = []))).

(** Lines 66-70: validation. *)
Definition validate (f : fields) : result unit :=
  if negb (truthy (tenant_id f)) then
    Raise (HTTPException 400 (py "Missing tenant_id"))
  else
    rbind (text_is_blank (text f)) (fun blank =>
    if blank then Raise (HTTPException 400 (py "Missing or empty text"))
    else Ok ()).

(** Lines 73-78: the normalized message. *)
Definition message (f : fields) : json :=
  JDict [(py "tenant_id", tenant_id f);
         (py "log_id", log_id f);
         (py "text", text f);
         (py "source", source f)].

(** [print(f"...")]: the line [e] is written, unless writing it raises. *)
Definition print_line (e : event) (values : list json)
  : M (list event) unit :=
  if prints values then emit e else raise UnicodeEncodeError.

(** Lines 81-87: publish, or log in development mode. *)
Definition publish_or_log (os : environ) (c : call) (f : fields)
  : M (list event) unit :=
  match publisher os, topic_path os with
  | Some _, Some ((_ :: _) as topic) =>
      let* dumped := lift (json_dumps (message f)) in
      let* message_bytes := lift (utf8_encode dumped) in
      let* _ := emit (Publish topic message_bytes) in
      let* message_id := lift (service (future_result c)) in
      print_line (PrintPublished message_id) [JStr message_id]
  | _, _ =>
      print_line (PrintDevMode (tenant_id f) (log_id f))
                 [tenant_id f; log_id f]
  end.

(** [POST /ingest] *)
Definition ingest (os : environ) (c : call) (r : request)
  : M (list event) returned :=
  let* f := lift (dispatch c r) in
  let* _ := lift (validate f) in
  let* _ := publish_or_log os c f in
  ret (JDict [(py "status", JStr (py "accepted"));
              (py "log_id", log_id f)], 202).

(** The HTTP response to a request, and what the call did. *)
Definition serve (os : environ) (c : call) (r : request)
  : list event * http_response :=
  let '(w, out) := ingest os c r [] in (w, respond out).

End handlers.

End Gateway.

(** ** The processing worker: [src/worker/worker.py] *)

Module Worker.

(** [GET /] *)
Definition root : json :=
  JDict [(py "status", JStr (py "healthy"));
         (py "service", JStr (py "log-processor-worker"));
         (py "version", JStr (py "1.0.0"))].

(** [GET /health] *)
Definition health : json := JDict [(py "status", JStr (py "ok"))].

(** A timestamp field: the sentinel a client writes, or the time the
    server put in its place. *)
Inductive timestamp :=
| SERVER_TIMESTAMP
| At (t : N).

(** The document written for a processed log. *)
Record processed_log := {
  source : json;
  original_text : json;
  modified_data : pystr;
  processed_at : timestamp;
  processing_time_seconds : float;
  text_length : nat
}.

(** A document reference is the path to the document; the database maps
    the paths of the documents that exist to their content. *)
Definition path := list pystr.

(** What one call of the handler does to the outside world other than the
    database. *)
Inductive event :=
| Sleep (seconds : float)
| DocumentSet (ref : path) (data : processed_log)
| PrintProcessed (log_id tenant_id : json) (chars : nat) (seconds : float)
| PrintJsonDecodeError
| PrintProcessingError (e : exn).

Record world := {
  db : gmap path processed_log;
  trace : list event
}.

Definition emit (e : event) : M world unit :=
  fun w => ({| db := db w; trace := trace w ++ [e] |}, Ok tt).

(** [s.split("/")] *)
Fixpoint split_slash (s : pystr) : list pystr :=
  match s with
  | [] => [[]]
  | c :: s' =>
      if (c =? 47)%N then [] :: split_slash s'
      else
        match split_slash s' with
        | h :: t => (c :: h) :: t
        | [] => [[c]]
        end
  end.

(** [collection.document(document_id)] on the collection at [parent]: the
    client library joins the segments of the path and the id with ["/"] and
    splits the result at every ["/"], so that an id with a ["/"] in it
    gives several segments; a document path has an even number of
    segments.  An id that is not a [str] cannot be joined. *)
Definition document (parent : path) (document_id : json) : result path :=
  match document_id with
  | JStr s =>
      let ref := parent ++ split_slash s in
      if Nat.even (length ref) then Ok ref else Raise ValueError
  | _ => Raise TypeError
  end.

(** [document.collection(collection_id)] *)
Definition collection (parent : path) (collection_id : pystr) : path :=
  parent ++ [collection_id].

(** [db.collection("tenants").document(tenant_id)
       .collection("processed_logs").document(log_id)] *)
Definition document_ref (tenant_id log_id : json) : result path :=
  rbind (document [py "tenants"] tenant_id) (fun tenant =>
  document (collection tenant (py "processed_logs")) log_id).

(** [doc_ref.set(data)]: the server answers with the time of the write,
    which replaces the sentinel, and the document at [ref] is created or
    replaced as a whole; or the write fails ([commit] is [None]), the call
    raises and nothing is written. *)
Definition set (commit : option N) (ref : path) (data : processed_log)
  : M world unit :=
  let* _ := emit (DocumentSet ref data) in
  let* t := lift (service commit) in
  fun w =>
    ({| db := <[ref := {| source := source data;
                          original_text := original_text data;
                          modified_data := modified_data data;
                          processed_at := At t;
                          processing_time_seconds :=
                            processing_time_seconds data;
                          text_length := text_length data |}]> (db w);
        trace := trace w |}, Ok tt).

Section handlers.
Context `{Lib}.

(** Lines 32-39: the envelope and the payload it carries. *)
Definition decode_payload (body : bytes) : result json :=
  rbind (json_loads body) (fun envelope =>
  rbind (py_in (py "message") envelope) (fun has_message =>
  if negb has_message then
    Raise (HTTPException 400 (py "Invalid Pub/Sub message format"))
  else
    rbind (py_getitem envelope (py "message")) (fun message =>
    rbind (py_getitem message (py "data")) (fun data =>
    rbind (b64decode data) (fun message_data =>
    json_loads message_data))))).

(** Lines 41-48: the fields of the payload. *)
Record fields := {
  tenant_id : json;
  log_id : json;
  text : json;
  payload_source : json
}.

Definition required_fields (data : json) : result fields :=
  rbind (py_get data (py "tenant_id") JNull) (fun tenant_id =>
  rbind (py_get data (py "log_id") JNull) (fun log_id =>
  rbind (py_get data (py "text") JNull) (fun text =>
  rbind (py_get data (py "source") (JStr (py "unknown"))) (fun source =>
  if negb (truthy tenant_id) || negb (truthy log_id) || negb (truthy text)
  then Raise (HTTPException 400 (py "Missing required fields"))
  else Ok {| tenant_id := tenant_id; log_id := log_id; text := text;
             payload_source := source |})))).

(** The redaction of line 55. *)
Definition redact (text : pystr) : pystr :=
  replace text (py "555-") (py "[REDACTED]-").

(** Lines 32-78: the body of the [try]. *)
Definition process_try (commit : option N) (body : bytes)
  : M world returned :=
  let* data := lift (decode_payload body) in
  let* f := lift (required_fields data) in
  let* n := lift (py_len (text f)) in
  let processing_time := int_mul_float n 0.05%float in
  let* _ := emit (Sleep processing_time) in
  let* modified_text :=
    lift (py_replace (text f) (py "555-") (py "[REDACTED]-")) in
  let* doc_ref := lift (document_ref (tenant_id f) (log_id f)) in
  let* _ :=
    set commit doc_ref
        {| source := payload_source f;
           original_text := text f;
           modified_data := modified_text;
           processed_at := SERVER_TIMESTAMP;
           processing_time_seconds := processing_time;
           text_length := n |} in
  let* _ := emit (PrintProcessed (log_id f) (tenant_id f) n processing_time) in
  ret (JDict [(py "status", JStr (py "processed"));
              (py "log_id", log_id f);
              (py "tenant_id", tenant_id f);
              (py "processing_time", JFloat processing_time)], 200).

(** [POST /process]: the [try] with its two [except] clauses.  The clauses
    are tried in order on whatever the body raised, an [HTTPException]
    included: it is an [Exception] and not a [JSONDecodeError]. *)
Definition process (commit : option N) (body : bytes) : M world returned :=
  fun w =>
    match process_try commit body w with
    | (w', Ok r) => (w', Ok r)
    | (w', Raise JSONDecodeError) =>
        (let* _ := emit PrintJsonDecodeError in
         raise (HTTPException 400 (py "Invalid JSON in message"))) w'
    | (w', Raise e) =>
        (let* _ := emit (PrintProcessingError e) in
         raise (HTTPException 500 (exn_str e))) w'
    end.

(** The HTTP response to a push, and the world after it.  What the handler
    returns renders: a fixed word, the two ids under which the store has
    just taken a document, and the product of a length and [0.05]. *)
Definition serve (commit : option N) (body : bytes) (w : world)
  : world * http_response :=
  let '(w', out) := process commit body w in (w', respond_rendered out).

End handlers.

End Worker.

(** ** Reference codecs

    Executable models of the library functions of [Lib], used to run the
    handlers on concrete requests.  They follow CPython on UTF-8, on base64
    and on JSON texts without a fraction or an exponent part; what they do
    not cover raises [NotImplementedError]. *)

Module Reference.

Definition byte_of_N (n : N) : byte := default x00 (Byte.of_N n).

#[local] Open Scope N_scope.

(** *** UTF-8 *)

(** [pending] is [Some (need, acc, lo, hi)] inside a multi-byte sequence:
    [need] continuation bytes are still expected, the next one within
    [lo..hi], and [acc] holds the bits read so far.  Under the
    [surrogatepass] error handler an encoded surrogate is let through. *)
Fixpoint utf8_decode_from (surrogatepass : bool)
    (pending : option (nat * N * N * N)) (bs : bytes) : result pystr :=
  match bs with
  | [] =>
      match pending with
      | None => Ok []
      | Some _ => Raise UnicodeDecodeError
      end
  | b :: bs' =>
      let n := Byte.to_N b in
      match pending with
      | None =>
          if n <? 128 then
            rbind (utf8_decode_from surrogatepass None bs') (fun s => Ok (n :: s))
          else if (194 <=? n) && (n <=? 223) then
            utf8_decode_from surrogatepass (Some (1%nat, n - 192, 128, 191)) bs'
          else if n =? 224 then
            utf8_decode_from surrogatepass (Some (2%nat, 0, 160, 191)) bs'
          else if n =? 237 then
            utf8_decode_from surrogatepass
              (Some (2%nat, 13, 128, if surrogatepass then 191 else 159)) bs'
          else if (225 <=? n) && (n <=? 239) then
            utf8_decode_from surrogatepass (Some (2%nat, n - 224, 128, 191)) bs'
          else if n =? 240 then
            utf8_decode_from surrogatepass (Some (3%nat, 0, 144, 191)) bs'
          else if (241 <=? n) && (n <=? 243) then
            utf8_decode_from surrogatepass (Some (3%nat, n - 240, 128, 191)) bs'
          else if n =? 244 then
            utf8_decode_from surrogatepass (Some (3%nat, 4, 128, 143)) bs'
          else Raise UnicodeDecodeError
      | Some (need, acc, lo, hi) =>
          if (lo <=? n) && (n <=? hi) then
            let acc' := acc * 64 + (n - 128) in
            match need with
            | O => Raise UnicodeDecodeError
            | S O =>
                rbind (utf8_decode_from surrogatepass None bs') (fun s => Ok (acc' :: s))
            | S k => utf8_decode_from surrogatepass (Some (k, acc', 128, 191)) bs'
            end
          else Raise UnicodeDecodeError
      end
  end.

(** [bs.decode("utf-8")] *)
Definition utf8_decode (bs : bytes) : result pystr :=
  utf8_decode_from false None bs.

Definition utf8_encode_char (c : N) : result bytes :=
  if c <? 128 then Ok [byte_of_N c]
  else if c <? 2048 then
    Ok [byte_of_N (192 + c / 64); byte_of_N (128 + c mod 64)]
  else if (55296 <=? c) && (c <=? 57343) then Raise UnicodeEncodeError
  else if c <? 65536 then
    Ok [byte_of_N (224 + c / 4096); byte_of_N (128 + (c / 64) mod 64);
        byte_of_N (128 + c mod 64)]
  else if c <? 1114112 then
    Ok [byte_of_N (240 + c / 262144); byte_of_N (128 + (c / 4096) mod 64);
        byte_of_N (128 + (c / 64) mod 64); byte_of_N (128 + c mod 64)]
  else Raise UnicodeEncodeError.

Fixpoint utf8_encode (s : pystr) : result bytes :=
  match s with
  | [] => Ok []
  | c :: s' =>
      rbind (utf8_encode_char c) (fun b =>
      rbind (utf8_encode s') (fun bs => Ok (b ++ bs)))
  end.

(** *** Base64 *)

(** The character of a 6-bit value, and the value of a character of the
    alphabet. *)
Definition b64_char (v : N) : N :=
  if v <? 26 then 65 + v
  else if v <? 52 then 97 + (v - 26)
  else if v <? 62 then 48 + (v - 52)
  else if v =? 62 then 43
  else 47.

Definition b64_value (c : N) : option N :=
  if (65 <=? c) && (c <=? 90) then Some (c - 65)
  else if (97 <=? c) && (c <=? 122) then Some (c - 97 + 26)
  else if (48 <=? c) && (c <=? 57) then Some (c - 48 + 52)
  else if c =? 43 then Some 62
  else if c =? 47 then Some 63
  else None.

(** [base64.b64encode(bs)], as text: what the queue puts in the [data]
    field of a push envelope. *)
Fixpoint b64encode (bs : bytes) : pystr :=
  match bs with
  | [] => []
  | [a] =>
      let a := Byte.to_N a in
      [b64_char (a / 4); b64_char ((a mod 4) * 16); 61; 61]
  | [a; b] =>
      let a := Byte.to_N a in
      let b := Byte.to_N b in
      [b64_char (a / 4); b64_char ((a mod 4) * 16 + b / 16);
       b64_char ((b mod 16) * 4); 61]
  | a :: b :: c :: rest =>
      let a := Byte.to_N a in
      let b := Byte.to_N b in
      let c := Byte.to_N c in
      b64_char (a / 4) :: b64_char ((a mod 4) * 16 + b / 16)
      :: b64_char ((b mod 16) * 4 + c / 64) :: b64_char (c mod 64)
      :: b64encode rest
  end.

(** [binascii.a2b_base64] in its default, non-strict mode: characters
    outside the alphabet are skipped, a complete run of padding ends the
    data, and the data must not stop inside a group of four. *)
Fixpoint a2b_base64 (quad_pos : nat) (leftchar : N) (pads : nat) (s : pystr)
  : result bytes :=
  match s with
  | [] =>
      match quad_pos with
      | O => Ok []
      | _ => Raise BinasciiError
      end
  | c :: s' =>
      if c =? 61 then
        if (2 <=? quad_pos)%nat && (4 <=? quad_pos + S pads)%nat then Ok []
        else a2b_base64 quad_pos leftchar
               (if (2 <=? quad_pos)%nat then S pads else pads) s'
      else
        match b64_value c with
        | None => a2b_base64 quad_pos leftchar pads s'
        | Some v =>
            match quad_pos with
            | 0%nat => a2b_base64 1 v 0 s'
            | 1%nat =>
                rbind (a2b_base64 2 (v mod 16) 0 s') (fun bs =>
                Ok (byte_of_N (leftchar * 4 + v / 16) :: bs))
            | 2%nat =>
                rbind (a2b_base64 3 (v mod 4) 0 s') (fun bs =>
                Ok (byte_of_N (leftchar * 16 + v / 4) :: bs))
            | _ =>
                rbind (a2b_base64 0 0 0 s') (fun bs =>
                Ok (byte_of_N (leftchar * 64 + v) :: bs))
            end
        end
  end.

(** [base64.b64decode(v)]: a [str] argument must be ASCII; an object that
    is neither a [str] nor bytes-like is a [TypeError]. *)
Definition b64decode (v : json) : result bytes :=
  match v with
  | JStr s =>
      if forallb (fun c => c <? 128) s then a2b_base64 0 0 0 s
      else Raise ValueError
  | _ => Raise TypeError
  end.

(** *** JSON *)

Definition str_of_Z (n : Z) : pystr :=
  py (NilZero.string_of_int (Z.to_int n)).

Definition hex_digit (v : N) : N :=
  if v <? 10 then 48 + v else 97 + (v - 10).

(** [\uXXXX] *)
Definition u_escape (c : N) : pystr :=
  [92; 117; hex_digit (c / 4096); hex_digit ((c / 256) mod 16);
   hex_digit ((c / 16) mod 16); hex_digit (c mod 16)].

(** One character of a string under [ensure_ascii=True]. *)
Definition escape_char (c : N) : pystr :=
  if c =? 34 then [92; 34]
  else if c =? 92 then [92; 92]
  else if c =? 10 then [92; 110]
  else if c =? 13 then [92; 114]
  else if c =? 9 then [92; 116]
  else if c =? 12 then [92; 102]
  else if c =? 8 then [92; 98]
  else if (32 <=? c) && (c <=? 126) then [c]
  else if c <? 65536 then u_escape c
  else u_escape (55296 + (c - 65536) / 1024)
       ++ u_escape (56320 + (c - 65536) mod 1024).

Definition dumps_str (s : pystr) : pystr :=
  [34] ++ flat_map escape_char s ++ [34].

(** [float.__repr__] on the values that are not finite. *)
Definition dumps_float (f : float) : result pystr :=
  if PrimFloat.is_nan f then Ok (py "NaN")
  else if PrimFloat.eqb f PrimFloat.infinity then Ok (py "Infinity")
  else if PrimFloat.eqb f PrimFloat.neg_infinity then Ok (py "-Infinity")
  else Raise NotImplementedError.

(** [json.dumps(v)] with its default separators. *)
Fixpoint dumps (v : json) : result pystr :=
  match v with
  | JNull => Ok (py "null")
  | JBool true => Ok (py "true")
  | JBool false => Ok (py "false")
  | JInt n => Ok (str_of_Z n)
  | JFloat f => dumps_float f
  | JStr s => Ok (dumps_str s)
  | JList l =>
      let fix items (l : list json) : result pystr :=
        match l with
        | [] => Ok []
        | [x] => dumps x
        | x :: l' =>
            rbind (dumps x) (fun a =>
            rbind (items l') (fun b => Ok (a ++ py ", " ++ b)))
        end in
      rbind (items l) (fun a => Ok (py "[" ++ a ++ py "]"))
  | JDict d =>
      let fix members (d : list (pystr * json)) : result pystr :=
        match d with
        | [] => Ok []
        | [(k, x)] =>
            rbind (dumps x) (fun a => Ok (dumps_str k ++ py ": " ++ a))
        | (k, x) :: d' =>
            rbind (dumps x) (fun a =>
            rbind (members d') (fun b =>
            Ok (dumps_str k ++ py ": " ++ a ++ py ", " ++ b)))
        end in
      rbind (members d) (fun a => Ok (py "{" ++ a ++ py "}"))
  end.

Definition is_ws (c : N) : bool :=
  (c =? 32) || (c =? 9) || (c =? 10) || (c =? 13).

Fixpoint skip_ws (s : pystr) : pystr :=
  match s with
  | c :: s' => if is_ws c then skip_ws s' else s
  | [] => []
  end.

Definition is_digit (c : N) : bool := (48 <=? c) && (c <=? 57).

Definition hex_value (c : N) : option N :=
  if is_digit c then Some (c - 48)
  else if (97 <=? c) && (c <=? 102) then Some (c - 97 + 10)
  else if (65 <=? c) && (c <=? 70) then Some (c - 65 + 10)
  else None.

(** The four hexadecimal digits of a [\u] escape. *)
Definition hex4 (s : pystr) : option (N * pystr) :=
  match s with
  | a :: b :: c :: d :: rest =>
      match hex_value a, hex_value b, hex_value c, hex_value d with
      | Some a, Some b, Some c, Some d =>
          Some (((a * 16 + b) * 16 + c) * 16 + d, rest)
      | _, _, _, _ => None
      end
  | _ => None
  end.

(** A string, from the character after its opening quote ([strict]
    mode: a raw control character is an error). *)
Fixpoint scanstring (fuel : nat) (s : pystr) : result (pystr * pystr) :=
  match fuel with
  | O => Raise RecursionError
  | S fuel =>
      let cons c rest :=
        rbind (scanstring fuel rest) (fun '(t, rest') => Ok (c :: t, rest')) in
      match s with
      | [] => Raise JSONDecodeError
      | 34 :: rest => Ok ([], rest)
      | 92 :: e :: rest =>
          if (e =? 34) || (e =? 92) || (e =? 47) then cons e rest
          else if e =? 98 then cons 8 rest
          else if e =? 102 then cons 12 rest
          else if e =? 110 then cons 10 rest
          else if e =? 114 then cons 13 rest
          else if e =? 116 then cons 9 rest
          else if e =? 117 then
            match hex4 rest with
            | None => Raise JSONDecodeError
            | Some (hi, rest1) =>
                let pair :=
                  if (55296 <=? hi) && (hi <=? 56319) then
                    match rest1 with
                    | 92 :: 117 :: rest2 =>
                        match hex4 rest2 with
                        | Some (lo, rest3) =>
                            if (56320 <=? lo) && (lo <=? 57343) then
                              Some (65536 + (hi - 55296) * 1024
                                    + (lo - 56320), rest3)
                            else None
                        | None => None
                        end
                    | _ => None
                    end
                  else None in
                match pair with
                | Some (c, rest3) => cons c rest3
                | None => cons hi rest1
                end
            end
          else Raise JSONDecodeError
      | c :: rest =>
          if (c <? 32) || (c =? 92) then Raise JSONDecodeError
          else cons c rest
      end
  end.

(** The digits at the head of a text, as a number, and what follows. *)
Fixpoint digits (acc : Z) (s : pystr) : Z * pystr :=
  match s with
  | c :: s' =>
      if is_digit c then digits (acc * 10 + Z.of_N (c - 48))%Z s'
      else (acc, s)
  | [] => (acc, [])
  end.

(** Whether a fraction or an exponent part follows an integer part. *)
Definition float_follows (s : pystr) : bool :=
  match s with
  | 46 :: d :: _ => is_digit d
  | e :: d :: rest =>
      ((e =? 101) || (e =? 69))
      && (is_digit d
          || ((d =? 43) || (d =? 45))
             && match rest with d' :: _ => is_digit d' | [] => false end)
  | _ => false
  end.

(** A number, from its first digit. *)
Definition scan_int (negative : bool) (s : pystr) : result (json * pystr) :=
  match s with
  | c :: s' =>
      if is_digit c then
        let '(n, rest) := if c =? 48 then (0%Z, s') else digits 0 s in
        if float_follows rest then Raise NotImplementedError
        else Ok (JInt (if negative then - n else n)%Z, rest)
      else Raise JSONDecodeError
  | [] => Raise JSONDecodeError
  end.

Definition literal (word : string) (v : json) (s : pystr)
  : result (json * pystr) :=
  if startswith (py word) s then Ok (v, drop (String.length word) s)
  else Raise JSONDecodeError.

(** A value, the items of an array after its opening bracket or a comma,
    and the members of an object after its opening brace or a comma. *)
Fixpoint scan_once (fuel : nat) (s : pystr) : result (json * pystr) :=
  match fuel with
  | O => Raise RecursionError
  | S fuel =>
      match s with
      | 34 :: rest =>
          rbind (scanstring (List.length rest) rest) (fun '(t, rest') =>
          Ok (JStr t, rest'))
      | 123 :: rest =>
          match skip_ws rest with
          | 125 :: rest' => Ok (JDict [], rest')
          | rest' =>
              rbind (members fuel [] rest') (fun '(d, rest'') =>
              Ok (JDict d, rest''))
          end
      | 91 :: rest =>
          match skip_ws rest with
          | 93 :: rest' => Ok (JList [], rest')
          | rest' =>
              rbind (items fuel rest') (fun '(l, rest'') =>
              Ok (JList l, rest''))
          end
      | 110 :: _ => literal "null" JNull s
      | 116 :: _ => literal "true" (JBool true) s
      | 102 :: _ => literal "false" (JBool false) s
      | 78 :: _ => literal "NaN" (JFloat PrimFloat.nan) s
      | 73 :: _ => literal "Infinity" (JFloat PrimFloat.infinity) s
      | 45 :: 73 :: _ =>
          literal "-Infinity" (JFloat PrimFloat.neg_infinity) s
      | 45 :: rest => scan_int true rest
      | _ => scan_int false s
      end
  end
with items (fuel : nat) (s : pystr) : result (list json * pystr) :=
  match fuel with
  | O => Raise RecursionError
  | S fuel =>
      rbind (scan_once fuel s) (fun '(v, rest) =>
      match skip_ws rest with
      | 93 :: rest' => Ok ([v], rest')
      | 44 :: rest' =>
          rbind (items fuel (skip_ws rest')) (fun '(l, rest'') =>
          Ok (v :: l, rest''))
      | _ => Raise JSONDecodeError
      end)
  end
with members (fuel : nat) (d : list (pystr * json)) (s : pystr)
  : result (list (pystr * json) * pystr) :=
  match fuel with
  | O => Raise RecursionError
  | S fuel =>
      match s with
      | 34 :: rest =>
          rbind (scanstring (List.length rest) rest) (fun '(k, rest1) =>
          match skip_ws rest1 with
          | 58 :: rest2 =>
              rbind (scan_once fuel (skip_ws rest2)) (fun '(v, rest3) =>
              let d' := dict_set k v d in
              match skip_ws rest3 with
              | 125 :: rest4 => Ok (d', rest4)
              | 44 :: rest4 => members fuel d' (skip_ws rest4)
              | _ => Raise JSONDecodeError
              end)
          | _ => Raise JSONDecodeError
          end)
      | _ => Raise JSONDecodeError
      end
  end.

(** The encodings [json.loads] detects other than UTF-8: a UTF-16 or
    UTF-32 byte order mark, or a zero among the first bytes. *)
Definition other_encoding (b : bytes) : bool :=
  match b with
  | xff :: xfe :: _ | xfe :: xff :: _ => true
  | x00 :: _ | _ :: x00 :: _ => true
  | _ => false
  end.

(** [json.loads(b)] on [bytes]. *)
Definition loads (b : bytes) : result json :=
  if other_encoding b then Raise NotImplementedError
  else
    let b :=
      match b with
      | xef :: xbb :: xbf :: b' => b'
      | _ => b
      end in
    rbind (utf8_decode_from true None b) (fun s =>
    rbind (scan_once (2 * List.length s + 2) (skip_ws s)) (fun '(v, rest) =>
    match skip_ws rest with
    | [] => Ok v
    | _ => Raise JSONDecodeError
    end)).

(** [str(e)]: the text of an [HTTPException] is its status code and its
    detail; for the other exceptions the name of the class stands for the
    message the library gives. *)
Definition exn_str (e : exn) : pystr :=
  match e with
  | HTTPException code detail => str_of_Z code ++ py ": " ++ detail
  | JSONDecodeError => py "JSONDecodeError"
  | UnicodeDecodeError => py "UnicodeDecodeError"
  | UnicodeEncodeError => py "UnicodeEncodeError"
  | BinasciiError => py "binascii.Error"
  | TypeError => py "TypeError"
  | AttributeError => py "AttributeError"
  | KeyError => py "KeyError"
  | ValueError => py "ValueError"
  | RecursionError => py "RecursionError"
  | NotImplementedError => py "NotImplementedError"
  | GoogleAPICallError => py "GoogleAPICallError"
  end.

(** The code points UTF-8 encodes: all but the surrogates. *)
Definition encodable (s : pystr) : bool :=
  forallb (fun c => (c <? 55296) || ((57343 <? c) && (c <? 1114112))) s.

Definition finite (f : float) : bool :=
  negb (PrimFloat.is_nan f || PrimFloat.eqb f PrimFloat.infinity
        || PrimFloat.eqb f PrimFloat.neg_infinity).

(** [JSONResponse.render(content)] returns unless the content has a float
    that is not finite or a string, a key included, that UTF-8 cannot
    encode.  The depth of the content is not bounded here. *)
Fixpoint renders (v : json) : bool :=
  match v with
  | JFloat f => finite f
  | JStr s => encodable s
  | JList l => forallb renders l
  | JDict d =>
      (fix members (d : list (pystr * json)) : bool :=
         match d with
         | [] => true
         | (k, x) :: d' => encodable k && renders x && members d'
         end) d
  | _ => true
  end.

(** [print(f"...")] on a standard output that encodes with UTF-8.  A [str]
    is interpolated as it is, and the line cannot be written when it has a
    code point that UTF-8 does not encode; the text of any other value
    escapes such code points. *)
Definition prints (values : list json) : bool :=
  forallb (fun v => match v with JStr s => encodable s | _ => true end)
          values.

#[export] Instance lib : Lib := {|
  json_loads := loads;
  json_dumps := dumps;
  Py.utf8_decode := utf8_decode;
  Py.utf8_encode := utf8_encode;
  Py.b64decode := b64decode;
  Py.exn_str := exn_str;
  Py.renders := renders;
  Py.prints := prints
|}.

(** The JSON text written with apostrophes for double quotes, as the body
    of a request. *)
Definition json_text (s : string) : bytes :=
  map (fun b => if Byte.eqb b "'"%byte then x22 else b) (ascii_bytes s).

(** The envelope a push subscription posts for a message published with
    the bytes [data]. *)
Definition push_envelope (data : bytes) : bytes :=
  match
    rbind (dumps (JDict [(py "message",
                          JDict [(py "data", JStr (b64encode data));
                                 (py "messageId", JStr (py "1"))]);
                         (py "subscription",
                          JStr (py "projects/p/subscriptions/s"))]))
          utf8_encode
  with
  | Ok b => b
  | Raise _ => []
  end.

End Reference.

(** ** The load test: [src/locustfile.py]

    The two tasks of [LogIngestionUser], as the requests they post to
    [/ingest].  The pacing of the tasks ([wait_time], the task weights) is
    left out. *)

Module Locust.

(** [random.choice(seq)]: the element at the index drawn, which is below
    the length of [seq]. *)
Definition random_choice (index : nat) (seq : list pystr) : pystr :=
  nth index seq [].

(** What the random sources give to one run of a task: the index
    [random.choice] draws, the identifier [uuid.uuid4()] draws and the
    number [random.randint(1000, 9999)] draws. *)
Record draw := {
  index : nat;
  uuid4 : pystr;
  randint : Z
}.

Definition ingest_json_tenants : list pystr :=
  [py "acme_corp"; py "beta_inc"; py "gamma_solutions"].

Definition ingest_text_tenants : list pystr :=
  [py "acme_corp"; py "beta_inc"].

(** The [json=] argument of [ingest_json]. *)
Definition ingest_json_entry (d : draw) : json :=
  JDict [(py "tenant_id", JStr (random_choice (index d) ingest_json_tenants));
         (py "log_id", JStr (py "load-" ++ uuid4 d));
         (py "text",
          JStr (py "Load test entry with data: "
                ++ Reference.str_of_Z (randint d)))].

(** The [data=] argument of [ingest_text]. *)
Definition ingest_text_data : string := "Plain text load test log entry".

Section tasks.
Context `{Lib}.

(** [ingest_json]: the HTTP client serialises the [json=] argument with
    [json.dumps] and sends its UTF-8 encoding. *)
Definition ingest_json (d : draw) : result Gateway.request :=
  rbind (json_dumps (ingest_json_entry d)) (fun dumped =>
  rbind (utf8_encode dumped) (fun body =>
  Ok {| Gateway.content_type_header := Some (py "application/json");
        Gateway.x_tenant_id := None;
        Gateway.request_body := body |})).

(** [ingest_text] *)
Definition ingest_text (d : draw) : Gateway.request :=
  {| Gateway.content_type_header := Some (py "text/plain");
     Gateway.x_tenant_id :=
       Some (random_choice (index d) ingest_text_tenants);
     Gateway.request_body := ascii_bytes ingest_text_data |}.

End tasks.

End Locust.

(** ** Vocabulary of the statements *)

(** *** Worker *)

(** A payload the worker can process to the end: a JSON object whose
    [tenant_id], [log_id] and [text] are non-empty strings, the two ids
    making a document reference.  [source] is whatever the object carries
    under that key, ["unknown"] when it has none. *)
Record log_entry := {
  entry_tenant : pystr;
  entry_log : pystr;
  entry_text : pystr;
  entry_source : json;
  entry_ref : Worker.path
}.

Definition as_log_entry (data : json) : option log_entry :=
  match data with
  | JDict d =>
      match dict_lookup (py "tenant_id") d, dict_lookup (py "log_id") d,
            dict_lookup (py "text") d with
      | Some (JStr (a :: t)), Some (JStr (b :: l)), Some (JStr (c :: s)) =>
          match Worker.document_ref (JStr (a :: t)) (JStr (b :: l)) with
          | Ok ref =>
              Some {| entry_tenant := a :: t;
                      entry_log := b :: l;
                      entry_text := c :: s;
                      entry_source :=
                        default (JStr (py "unknown"))
                                (dict_lookup (py "source") d);
                      entry_ref := ref |}
          | Raise _ => None
          end
      | _, _, _ => None
      end
  | _ => None
  end.

(** The storage key [(tenant_id, log_id)] as a document path, for ids
    that have no ["/"] in them. *)
Definition document_path (tenant log : pystr) : Worker.path :=
  [py "tenants"; tenant; py "processed_logs"; log].

Definition plain_id (id : pystr) : bool :=
  forallb (fun c => negb (c =? 47)%N) id.

(** The simulated processing time of a text. *)
Definition delay (text : pystr) : float :=
  int_mul_float (length text) 0.05%float.

(** The document the worker sends for an entry, and the document stored
    once the server has put the time [t] of the write in it. *)
Definition sent_document (e : log_entry) (at_ : Worker.timestamp)
  : Worker.processed_log :=
  {| Worker.source := entry_source e;
     Worker.original_text := JStr (entry_text e);
     Worker.modified_data := Worker.redact (entry_text e);
     Worker.processed_at := at_;
     Worker.processing_time_seconds := delay (entry_text e);
     Worker.text_length := length (entry_text e) |}.

(** The world after an entry has been processed at time [t]. *)
Definition processed (e : log_entry) (t : N) (w : Worker.world)
  : Worker.world :=
  let ref := entry_ref e in
  {| Worker.db := <[ref := sent_document e (Worker.At t)]> (Worker.db w);
     Worker.trace :=
       Worker.trace w ++
       [Worker.Sleep (delay (entry_text e));
        Worker.DocumentSet ref (sent_document e Worker.SERVER_TIMESTAMP);
        Worker.PrintProcessed (JStr (entry_log e)) (JStr (entry_tenant e))
          (length (entry_text e)) (delay (entry_text e))] |}.

(** The value the handler returns for an entry. *)
Definition processed_return (e : log_entry) : returned :=
  (JDict [(py "status", JStr (py "processed"));
          (py "log_id", JStr (entry_log e));
          (py "tenant_id", JStr (entry_tenant e));
          (py "processing_time", JFloat (delay (entry_text e)))], 200).

(** The content of a document apart from the time of the write. *)
Definition content (d : Worker.processed_log)
  : json * json * pystr * float * nat :=
  (Worker.source d, Worker.original_text d, Worker.modified_data d,
   Worker.processing_time_seconds d, Worker.text_length d).

(** The two structural defects of a push: the body is a JSON object with no
    ["message"] key; the payload is a JSON object in which [tenant_id],
    [log_id] or [text] is missing. *)
Definition lacks_message `{Lib} (body : bytes) : bool :=
  match json_loads body with
  | Ok (JDict d) => negb (bool_decide (is_Some (dict_lookup (py "message") d)))
  | _ => false
  end.

Definition lacks_required_field `{Lib} (body : bytes) : bool :=
  match Worker.decode_payload body with
  | Ok (JDict d) =>
      negb (bool_decide (is_Some (dict_lookup (py "tenant_id") d)))
      || negb (bool_decide (is_Some (dict_lookup (py "log_id") d)))
      || negb (bool_decide (is_Some (dict_lookup (py "text") d)))
  | _ => false
  end.

(** *** Gateway *)

(** The gateway publishes when it runs in production. *)
Definition production (os : Gateway.environ) : bool :=
  bool_decide (Gateway.getenv_ENVIRONMENT os = Some (py "production")).

(** The topic it publishes to. *)
Definition topic (os : Gateway.environ) : pystr :=
  py "projects/" ++ Gateway.PROJECT_ID os ++ py "/topics/"
  ++ Gateway.TOPIC_NAME.

(** The value the handler returns for an accepted entry. *)
Definition accepted_return (log_id : json) : returned :=
  (JDict [(py "status", JStr (py "accepted")); (py "log_id", log_id)], 202).

Definition is_null (v : json) : bool :=
  match v with
  | JNull => true
  | _ => false
  end.

(** A field that is missing or empty, and a text that is missing, empty or
    made of whitespace only.  A missing field reads as [None]. *)
Definition missing_or_empty (v : json) : bool :=
  match v with
  | JNull | JStr [] => true
  | _ => false
  end.

Definition missing_or_blank (v : json) : bool :=
  match v with
  | JNull => true
  | JStr s => bool_decide (strip s = [])
  | _ => false
  end.

(** A valid entry: a non-empty [tenant_id] and a non-blank [text]. *)
Definition valid_fields (f : Gateway.fields) : bool :=
  match Gateway.tenant_id f, Gateway.text f with
  | JStr (_ :: _), JStr s => negb (bool_decide (strip s = []))
  | _, _ => false
  end.

Definition valid_request `{Lib} (c : Gateway.call) (r : Gateway.request)
  : bool :=
  match Gateway.dispatch c r with
  | Ok f => valid_fields f
  | Raise _ => false
  end.

(** The publish step of the call, when the call gets to it, does not
    raise. *)
Definition publish_returns `{Lib} (os : Gateway.environ) (c : Gateway.call)
    (r : Gateway.request) : bool :=
  match Gateway.dispatch c r with
  | Ok f =>
      match Gateway.publish_or_log os c f [] with
      | (_, Ok _) => true
      | (_, Raise _) => false
      end
  | Raise _ => true
  end.

(** Lines 81-87 of the call, when the call gets to them, do not raise: a
    request that is not dispatched, or that the validation rejects, does
    not get to them. *)
Definition publish_step_returns `{Lib} (os : Gateway.environ)
    (c : Gateway.call) (r : Gateway.request) : bool :=
  match Gateway.dispatch c r with
  | Ok f =>
      match Gateway.validate f with
      | Ok _ =>
          match Gateway.publish_or_log os c f [] with
          | (_, Ok _) => true
          | (_, Raise _) => false
          end
      | Raise _ => true
      end
  | Raise _ => true
  end.

(** The events of a call that hand a message to the queue. *)
Definition published (evs : list Gateway.event) : list (pystr * bytes) :=
  flat_map (fun e =>
              match e with
              | Gateway.Publish t d => [(t, d)]
              | _ => []
              end) evs.

(** All four fields of a message are populated and its text is not
    blank. *)
Definition populated (message : json) : bool :=
  match message with
  | JDict d =>
      match dict_lookup (py "tenant_id") d, dict_lookup (py "log_id") d,
            dict_lookup (py "text") d, dict_lookup (py "source") d with
      | Some t, Some l, Some x, Some s =>
          negb (is_null t) && negb (is_null l)
          && negb (missing_or_blank x) && negb (is_null s)
      | _, _, _, _ => false
      end
  | _ => false
  end.

(** *** Scenarios

    Concrete environments and requests, run with the reference codecs. *)

Module Scenario.

Import Reference.

Definition os_production : Gateway.environ :=
  {| Gateway.getenv_PROJECT_ID := None;
     Gateway.getenv_ENVIRONMENT := Some (py "production") |}.

Definition os_development : Gateway.environ :=
  {| Gateway.getenv_PROJECT_ID := None;
     Gateway.getenv_ENVIRONMENT := None |}.

(** A call whose publish is acknowledged, and one whose publish fails. *)
Definition call_acked : Gateway.call :=
  {| Gateway.uuid4 := py "3f2b8c1e-5d4a-4e6f-9a7b-0c1d2e3f4a5b";
     Gateway.future_result := Some (py "1") |}.

Definition call_failed : Gateway.call :=
  {| Gateway.uuid4 := py "3f2b8c1e-5d4a-4e6f-9a7b-0c1d2e3f4a5b";
     Gateway.future_result := None |}.

Definition post_json (body : string) : Gateway.request :=
  {| Gateway.content_type_header := Some (py "application/json");
     Gateway.x_tenant_id := None;
     Gateway.request_body := json_text body |}.

Definition post_text (tenant : option string) (body : string)
  : Gateway.request :=
  {| Gateway.content_type_header := Some (py "text/plain");
     Gateway.x_tenant_id := py <$> tenant;
     Gateway.request_body := ascii_bytes body |}.

(** The entry of the end-to-end scenario. *)
Definition request_L1 : Gateway.request :=
  post_json "{'tenant_id':'acme','log_id':'L1','text':'call 555-1234'}".

(** A JSON entry without [log_id]. *)
Definition request_without_log_id : Gateway.request :=
  post_json "{'tenant_id':'acme','text':'call 555-1234'}".

(** A JSON entry with neither a tenant nor a text that is not blank. *)
Definition request_without_tenant : Gateway.request :=
  post_json "{'log_id':'L1','text':'   '}".

(** A plain-text entry whose text has whitespace around it. *)
Definition request_padded : Gateway.request :=
  post_text (Some "acme"%string) "  hello  ".

(** The message the gateway publishes for [request_L1], and the push that
    delivers it. *)
Definition message_L1 : bytes :=
  json_text "{'tenant_id': 'acme', 'log_id': 'L1', 'text': 'call 555-1234', 'source': 'json'}".

Definition push_L1 : bytes := push_envelope message_L1.

(** The same entry from another tenant, under another id and source. *)
Definition push_L2 : bytes :=
  push_envelope
    (json_text "{'tenant_id': 'beta', 'log_id': 'L2', 'text': 'call 555-1234', 'source': 'text_upload'}").

(** The message the gateway publishes for [request_without_log_id]. *)
Definition message_without_log_id : bytes :=
  json_text "{'tenant_id': 'acme', 'log_id': null, 'text': 'call 555-1234', 'source': 'json'}".

(** The message the gateway publishes for [request_padded]. *)
Definition message_padded : bytes :=
  json_text "{'tenant_id': 'acme', 'log_id': '3f2b8c1e-5d4a-4e6f-9a7b-0c1d2e3f4a5b', 'text': '  hello  ', 'source': 'text_upload'}".

(** A push with no ["message"] key, and one whose payload has no
    [tenant_id]. *)
Definition push_without_message : bytes := json_text "{}".

Definition push_without_tenant : bytes :=
  push_envelope (json_text "{'log_id': 'L1', 'text': 'call 555-1234'}").

(** The payloads, decoded. *)
Definition payload_L1 : json :=
  JDict [(py "tenant_id", JStr (py "acme"));
         (py "log_id", JStr (py "L1"));
         (py "text", JStr (py "call 555-1234"));
         (py "source", JStr (py "json"))].

Definition payload_L2 : json :=
  JDict [(py "tenant_id", JStr (py "beta"));
         (py "log_id", JStr (py "L2"));
         (py "text", JStr (py "call 555-1234"));
         (py "source", JStr (py "text_upload"))].

Definition payload_without_log_id : json :=
  JDict [(py "tenant_id", JStr (py "acme"));
         (py "log_id", JNull);
         (py "text", JStr (py "call 555-1234"));
         (py "source", JStr (py "json"))].

Definition entry_L2 : log_entry :=
  {| entry_tenant := py "beta";
     entry_log := py "L2";
     entry_text := py "call 555-1234";
     entry_source := JStr (py "text_upload");
     entry_ref := document_path (py "beta") (py "L2") |}.

Definition entry_L1 : log_entry :=
  {| entry_tenant := py "acme";
     entry_log := py "L1";
     entry_text := py "call 555-1234";
     entry_source := JStr (py "json");
     entry_ref := document_path (py "acme") (py "L1") |}.

Definition empty_world : Worker.world :=
  {| Worker.db := ∅; Worker.trace := [] |}.

End Scenario.

(** *** Texts *)

(** A text made of whitespace only (the empty text included). *)
Definition all_space (s : pystr) : bool := forallb isspace s.

(** The pattern the worker redacts. *)
Definition phone_prefix : pystr := py "555-".

(** The number of occurrences of the pattern in a text. *)
Fixpoint occurrences (s : pystr) : nat :=
  match s with
  | [] => O
  | _ :: s' => (if startswith phone_prefix s then 1 else 0) + occurrences s'
  end.

(** *** Pipeline *)

(** A push whose payload is the message the gateway built for [f]. *)
Definition delivers `{Lib} (push : bytes) (f : Gateway.fields) : Prop :=
  Worker.decode_payload push = Ok (Gateway.message f).

(** What a call of the worker adds to the log of events. *)
Definition logged (w w' : Worker.world) (evs : list Worker.event) : Prop :=
  Worker.trace w' = Worker.trace w ++ evs.

(** More scenarios. *)
Module Scenario2.

Import Reference.

Definition draw_1 : Locust.draw :=
  {| Locust.index := 1%nat;
     Locust.uuid4 := py "0d9f2a77-6c1b-4b8e-8f3a-5e2d1c0b9a88";
     Locust.randint := 4711 |}.

(** The body [ingest_json] sends for [draw_1]. *)
Definition body_1 : bytes :=
  json_text "{'tenant_id': 'beta_inc', 'log_id': 'load-0d9f2a77-6c1b-4b8e-8f3a-5e2d1c0b9a88', 'text': 'Load test entry with data: 4711'}".

Definition post (content_type : option string) (tenant : option string)
    (body : bytes) : Gateway.request :=
  {| Gateway.content_type_header := py <$> content_type;
     Gateway.x_tenant_id := py <$> tenant;
     Gateway.request_body := body |}.

(** A push that is not JSON, one whose payload is not JSON, one whose
    message has no [data], and payloads with a text that is a list, with
    another tenant and without [log_id]. *)
Definition push_not_json : bytes := ascii_bytes "not json".

Definition push_payload_not_json : bytes :=
  push_envelope (ascii_bytes "{not json").

Definition push_without_data : bytes :=
  json_text "{'message': {'messageId': '1'}}".

Definition push_text_list : bytes :=
  push_envelope
    (json_text "{'tenant_id': 'acme', 'log_id': 'L1', 'text': ['a', 'b', 'c']}").

Definition push_beta : bytes :=
  push_envelope
    (json_text "{'tenant_id': 'beta', 'log_id': 'L1', 'text': 'no phone here'}").

Definition entry_beta : log_entry :=
  {| entry_tenant := py "beta";
     entry_log := py "L1";
     entry_text := py "no phone here";
     entry_source := JStr (py "unknown");
     entry_ref := document_path (py "beta") (py "L1") |}.

Definition payload_beta : json :=
  JDict [(py "tenant_id", JStr (py "beta"));
         (py "log_id", JStr (py "L1"));
         (py "text", JStr (py "no phone here"))].

Definition fields_L1 : Gateway.fields :=
  {| Gateway.tenant_id := JStr (py "acme");
     Gateway.log_id := JStr (py "L1");
     Gateway.text := JStr (py "call 555-1234");
     Gateway.source := JStr (py "json") |}.

Definition fields_without_log_id : Gateway.fields :=
  {| Gateway.tenant_id := JStr (py "acme");
     Gateway.log_id := JNull;
     Gateway.text := JStr (py "call 555-1234");
     Gateway.source := JStr (py "json") |}.

(** Requests with another content type, with a body that is not JSON,
    with a JSON body that is not an object and with a text that is a
    number. *)
Definition request_xml : Gateway.request :=
  post (Some "application/xml"%string) (Some "acme"%string)
       (ascii_bytes "<entry/>").

Definition request_not_json : Gateway.request :=
  Scenario.post_json "{oops".

Definition request_array : Gateway.request :=
  Scenario.post_json "[1, 2]".

Definition request_number_text : Gateway.request :=
  Scenario.post_json "{'tenant_id':'acme','log_id':'L1','text':5}".

Definition fields_number_text : Gateway.fields :=
  {| Gateway.tenant_id := JStr (py "acme");
     Gateway.log_id := JStr (py "L1");
     Gateway.text := JInt 5;
     Gateway.source := JStr (py "json") |}.

(** The JSON text of the message of [fields_L1]. *)
Definition dumped_L1 : pystr :=
  match dumps Scenario.payload_L1 with
  | Ok text => text
  | Raise _ => []
  end.

(** A plain-text request whose body is not UTF-8, a push whose body is a
    JSON array, a push whose data is not base64, and an entry whose tenant
    is a number with the push of its message. *)
Definition request_not_utf8 : Gateway.request :=
  post (Some "text/plain"%string) (Some "acme"%string) [xff; xfe].

(** Requests that name no tenant and are not dispatched: a JSON body that
    is [null], and a plain-text body that is not UTF-8 with no
    [X-Tenant-ID] header. *)
Definition request_null : Gateway.request :=
  Scenario.post_json "null".

Definition request_not_utf8_without_tenant : Gateway.request :=
  post (Some "text/plain"%string) None [xff; xfe].

(** Entries whose [log_id] is [NaN], and whose [tenant_id] is the lone
    surrogate U+D800. *)
Definition request_nan_log_id : Gateway.request :=
  Scenario.post_json "{'tenant_id':'acme','log_id':NaN,'text':'call 555-1234'}".

Definition request_surrogate_tenant : Gateway.request :=
  Scenario.post_json
    "{'tenant_id':'\ud800','log_id':'L1','text':'call 555-1234'}".

Definition push_array : bytes := json_text "['message']".

Definition push_not_base64 : bytes :=
  json_text "{'message': {'data': 'abc'}}".

Definition fields_number_tenant : Gateway.fields :=
  {| Gateway.tenant_id := JInt 7;
     Gateway.log_id := JStr (py "L1");
     Gateway.text := JStr (py "hello");
     Gateway.source := JStr (py "json") |}.

Definition push_number_tenant : bytes :=
  push_envelope
    (json_text "{'tenant_id': 7, 'log_id': 'L1', 'text': 'hello', 'source': 'json'}").

(** The push of the message published for an entry without [log_id]. *)
Definition push_without_log_id : bytes :=
  push_envelope Scenario.message_without_log_id.

End Scenario2.

(** ** Theorems *)

#[local] Arguments py : simpl never.
#[local] Arguments int_mul_float : simpl never.
#[local] Arguments Worker.redact : simpl never.
#[local] Arguments replace : simpl never.

Section worker_facts.
Context `{Lib}.

Lemma process_log_entry (body : bytes) (data : json) (e : log_entry)
    (t : N) (w : Worker.world) :
  Worker.decode_payload body = Ok data ->
  as_log_entry data = Some e ->
  Worker.process (Some t) body w = (processed e t w, Ok (processed_return e)).
Proof.
  intros Hd He.
  destruct data as [| | | | |? |d]; try discriminate.
  unfold as_log_entry in He.
  destruct (dict_lookup (py "tenant_id") d) as [[| | | |[|a tn]| |]|] eqn:Ht;
    try discriminate.
  destruct (dict_lookup (py "log_id") d) as [[| | | |[|b lg]| |]|] eqn:Hl;
    try discriminate.
  destruct (dict_lookup (py "text") d) as [[| | | |[|c s]| |]|] eqn:Hs;
    try discriminate.
  destruct (Worker.document_ref (JStr (a :: tn)) (JStr (b :: lg)))
    as [ref|] eqn:Href; [|discriminate].
  injection He as <-.
  unfold Worker.process, Worker.process_try, bind, lift.
  rewrite Hd. unfold Worker.required_fields, py_get.
  cbn [rbind]. rewrite Ht, Hl, Hs.
  cbn -[Worker.document_ref]. rewrite Href.
  unfold processed, processed_return, sent_document, delay. cbn.
  rewrite <- !app_assoc. reflexivity.
Qed.

Lemma get_nonempty_str (d : list (pystr * json)) (k : pystr) (v : json) :
  default JNull (dict_lookup k d) = v -> truthy v = true ->
  dict_lookup k d = Some v.
Proof.
  destruct (dict_lookup k d) as [x|]; cbn; intros <-; [done | discriminate].
Qed.

Lemma required_fields_ok (data : json) (f : Worker.fields) :
  Worker.required_fields data = Ok f ->
  exists d,
    data = JDict d /\
    dict_lookup (py "tenant_id") d = Some (Worker.tenant_id f) /\
    dict_lookup (py "log_id") d = Some (Worker.log_id f) /\
    dict_lookup (py "text") d = Some (Worker.text f) /\
    Worker.payload_source f
      = default (JStr (py "unknown")) (dict_lookup (py "source") d) /\
    truthy (Worker.tenant_id f) = true /\
    truthy (Worker.log_id f) = true /\
    truthy (Worker.text f) = true.
Proof.
  unfold Worker.required_fields.
  destruct data as [| | | | | |d]; try discriminate.
  cbn [py_get rbind].
  destruct (truthy (default JNull (dict_lookup (py "tenant_id") d))) eqn:Ht;
    [|discriminate].
  destruct (truthy (default JNull (dict_lookup (py "log_id") d))) eqn:Hl;
    [|discriminate].
  destruct (truthy (default JNull (dict_lookup (py "text") d))) eqn:Hs;
    [|discriminate].
  cbn. intros [= <-]. cbn. exists d.
  repeat split; eauto using get_nonempty_str.
Qed.

(** A call of the handler that returns has processed a log entry: nothing
    else makes it return. *)
Lemma process_returns (commit : option N) (body : bytes)
    (w w' : Worker.world) (r : returned) :
  Worker.process commit body w = (w', Ok r) ->
  exists data e t,
    Worker.decode_payload body = Ok data /\
    as_log_entry data = Some e /\
    commit = Some t /\
    w' = processed e t w /\
    r = processed_return e.
Proof.
  unfold Worker.process.
  destruct (Worker.process_try commit body w) as [w1 [r1|e1]] eqn:Htry;
    [|destruct e1; discriminate].
  intros [= <- <-]. revert Htry.
  unfold Worker.process_try, bind, lift.
  destruct (Worker.decode_payload body) as [data|] eqn:Hd; [|discriminate].
  destruct (Worker.required_fields data) as [f|] eqn:Hf; [|discriminate].
  apply required_fields_ok in Hf
    as (d & -> & Ht & Hl & Hs & Hsrc & Tt & Tl & Ts).
  destruct f as [tn lg tx src]; cbn [Worker.tenant_id Worker.log_id
    Worker.text Worker.payload_source] in *.
  destruct tx as [| | | |s| |]; cbn -[Worker.document_ref];
    try discriminate.
  destruct (Worker.document_ref tn lg) as [ref|] eqn:Href; [|discriminate].
  destruct tn as [| | | |t| |]; try discriminate.
  destruct lg as [| | | |l| |];
    try (unfold Worker.document_ref, Worker.document in Href;
         cbn in Href; case_match; discriminate).
  destruct commit as [tm|]; cbn; [|discriminate].
  destruct s as [|c s]; [discriminate|].
  destruct t as [|a t]; [discriminate|].
  destruct l as [|b l]; [discriminate|].
  intros [= <- <-].
  eexists (JDict d), _, tm. split; [reflexivity|].
  split; [cbn -[Worker.document_ref]; rewrite Ht, Hl, Hs, Href; reflexivity|].
  split; [reflexivity|].
  unfold processed, processed_return, sent_document, delay. cbn.
  rewrite <- !app_assoc, Hsrc. split; reflexivity.
Qed.

(** The reference of ids that have no ["/"] in them. *)
Lemma split_slash_plain (id : pystr) :
  plain_id id = true -> Worker.split_slash id = [id].
Proof.
  induction id as [|c id IH]; [reflexivity|].
  cbn. intros [Hc Hid]%andb_true_iff.
  apply negb_true_iff in Hc. rewrite Hc, (IH Hid). reflexivity.
Qed.

Lemma document_ref_plain (tenant log : pystr) :
  plain_id tenant = true -> plain_id log = true ->
  Worker.document_ref (JStr tenant) (JStr log)
    = Ok (document_path tenant log).
Proof.
  intros Ht Hl. unfold Worker.document_ref, Worker.document, Worker.collection.
  rewrite (split_slash_plain _ Ht). cbn. rewrite (split_slash_plain _ Hl).
  reflexivity.
Qed.

Lemma entry_ref_plain (data : json) (e : log_entry) :
  as_log_entry data = Some e ->
  plain_id (entry_tenant e) = true -> plain_id (entry_log e) = true ->
  entry_ref e = document_path (entry_tenant e) (entry_log e).
Proof.
  unfold as_log_entry. intros He.
  repeat case_match; try discriminate. injection He as <-.
  cbn [entry_tenant entry_log entry_ref].
  intros Ht Hl. rewrite (document_ref_plain _ _ Ht Hl) in *. congruence.
Qed.

Lemma process_raises (commit : option N) (body : bytes)
    (w w1 : Worker.world) (code : Z) (detail : pystr) :
  Worker.process_try commit body w = (w1, Raise (HTTPException code detail)) ->
  Worker.serve commit body w =
    ({| Worker.db := Worker.db w1;
        Worker.trace :=
          Worker.trace w1
          ++ [Worker.PrintProcessingError (HTTPException code detail)] |},
     {| status := 500;
        body := JsonBody
                  (JDict [(py "detail",
                           JStr (exn_str (HTTPException code detail)))]) |}).
Proof.
  unfold Worker.serve, Worker.process. intros ->. reflexivity.
Qed.

Lemma structural_defect_raises (commit : option N) (body : bytes)
    (w : Worker.world) :
  lacks_message body || lacks_required_field body = true ->
  exists detail,
    Worker.process_try commit body w = (w, Raise (HTTPException 400 detail)).
Proof.
  intros [Hm|Hf]%orb_true_iff.
  - unfold lacks_message in Hm.
    destruct (json_loads body) as [[| | | | | |d]|] eqn:Hl; try discriminate.
    apply negb_true_iff in Hm.
    unfold Worker.process_try, bind, lift, Worker.decode_payload.
    rewrite Hl. cbn [rbind py_in]. rewrite Hm. cbn. eauto.
  - unfold lacks_required_field in Hf.
    destruct (Worker.decode_payload body) as [[| | | | | |d]|] eqn:Hd;
      try discriminate.
    unfold Worker.process_try, bind, lift. rewrite Hd.
    assert (Worker.required_fields (JDict d)
            = Raise (HTTPException 400 (py "Missing required fields")))
      as ->; [|eauto].
    unfold Worker.required_fields. cbn [py_get rbind].
    assert (forall k, negb (bool_decide (is_Some (dict_lookup k d))) = true ->
                      truthy (default JNull (dict_lookup k d)) = false) as Hk.
    { intros k Hk. apply negb_true_iff, bool_decide_eq_false in Hk.
      destruct (dict_lookup k d); [|reflexivity].
      contradict Hk. eauto. }
    apply orb_true_iff in Hf as [[Hf|Hf]%orb_true_iff|Hf];
      rewrite (Hk _ Hf); cbn; rewrite ?orb_true_r; reflexivity.
Qed.

End worker_facts.

Section gateway_facts.
Context `{Lib}.

Lemma ingest_unfold (os : Gateway.environ) (c : Gateway.call)
    (r : Gateway.request) (w : list Gateway.event) :
  Gateway.ingest os c r w =
    match Gateway.dispatch c r with
    | Raise e => (w, Raise e)
    | Ok f =>
        match Gateway.validate f with
        | Raise e => (w, Raise e)
        | Ok _ =>
            match Gateway.publish_or_log os c f w with
            | (w', Ok _) => (w', Ok (accepted_return (Gateway.log_id f)))
            | (w', Raise e) => (w', Raise e)
            end
        end
    end.
Proof.
  unfold Gateway.ingest, bind, lift, ret.
  destruct (Gateway.dispatch c r); [|reflexivity].
  destruct (Gateway.validate a); [|reflexivity].
  destruct (Gateway.publish_or_log os c a w) as [w' [[]|]]; reflexivity.
Qed.

Lemma publish_or_log_production (os : Gateway.environ) (c : Gateway.call)
    (f : Gateway.fields) (w : list Gateway.event) :
  production os = true ->
  Gateway.publish_or_log os c f w =
    match json_dumps (Gateway.message f) with
    | Raise e => (w, Raise e)
    | Ok dumped =>
        match utf8_encode dumped with
        | Raise e => (w, Raise e)
        | Ok data =>
            match Gateway.future_result c with
            | None =>
                (w ++ [Gateway.Publish (topic os) data],
                 Raise GoogleAPICallError)
            | Some id =>
                if prints [JStr id] then
                  (w ++ [Gateway.Publish (topic os) data;
                         Gateway.PrintPublished id], Ok ())
                else
                  (w ++ [Gateway.Publish (topic os) data],
                   Raise UnicodeEncodeError)
            end
        end
    end.
Proof.
  unfold production, Gateway.publish_or_log, Gateway.publisher,
    Gateway.topic_path.
  intros ->. fold (topic os).
  assert (exists a t, topic os = a :: t) as (a & t & ->)
    by (unfold topic, py; cbn; eauto).
  unfold Gateway.print_line, bind, lift, raise, Gateway.emit.
  destruct (json_dumps (Gateway.message f)); [|reflexivity].
  destruct (utf8_encode a0); [|reflexivity].
  destruct (Gateway.future_result c); cbn; [|reflexivity].
  destruct (prints _); [|reflexivity].
  rewrite <- app_assoc. reflexivity.
Qed.

Lemma publish_or_log_development (os : Gateway.environ) (c : Gateway.call)
    (f : Gateway.fields) (w : list Gateway.event) :
  production os = false ->
  Gateway.publish_or_log os c f w =
    if prints [Gateway.tenant_id f; Gateway.log_id f] then
      (w ++ [Gateway.PrintDevMode (Gateway.tenant_id f) (Gateway.log_id f)],
       Ok ())
    else (w, Raise UnicodeEncodeError).
Proof.
  unfold production, Gateway.publish_or_log, Gateway.publisher.
  intros ->. unfold Gateway.print_line, Gateway.emit, raise.
  destruct (prints _); reflexivity.
Qed.

Lemma validate_ok (f : Gateway.fields) :
  Gateway.validate f = Ok () ->
  truthy (Gateway.tenant_id f) = true /\
  exists s, Gateway.text f = JStr s /\ strip s <> [].
Proof.
  unfold Gateway.validate, Gateway.text_is_blank.
  destruct (truthy (Gateway.tenant_id f)); [|discriminate].
  destruct (Gateway.text f) as [| | | |s| |]; cbn;
    repeat (case_match; cbn); try discriminate.
  case_bool_decide; [discriminate|]. eauto.
Qed.

Lemma valid_fields_validate (f : Gateway.fields) :
  valid_fields f = true -> Gateway.validate f = Ok ().
Proof.
  unfold valid_fields, Gateway.validate, Gateway.text_is_blank.
  destruct (Gateway.tenant_id f) as [| | | |[|a t]| |]; try discriminate.
  destruct (Gateway.text f) as [| | | |s| |]; try discriminate.
  cbn. case_bool_decide as Hs; [discriminate|].
  destruct s as [|b s]; [done|]. reflexivity.
Qed.

(** The two ways a request is dispatched. *)
Lemma dispatch_ok (c : Gateway.call) (r : Gateway.request)
    (f : Gateway.fields) :
  Gateway.dispatch c r = Ok f ->
  let content_type := default (py "") (Gateway.content_type_header r) in
  (exists d,
     contains (py "application/json") content_type = true /\
     json_loads (Gateway.request_body r) = Ok (JDict d) /\
     f = {| Gateway.tenant_id := default JNull (dict_lookup (py "tenant_id") d);
            Gateway.log_id := default JNull (dict_lookup (py "log_id") d);
            Gateway.text := default JNull (dict_lookup (py "text") d);
            Gateway.source := JStr (py "json") |})
  \/
  (exists s,
     contains (py "application/json") content_type = false /\
     contains (py "text/plain") content_type = true /\
     utf8_decode (Gateway.request_body r) = Ok s /\
     f = {| Gateway.tenant_id := from_option JStr JNull (Gateway.x_tenant_id r);
            Gateway.log_id := JStr (Gateway.uuid4 c);
            Gateway.text := JStr s;
            Gateway.source := JStr (py "text_upload") |}).
Proof.
  unfold Gateway.dispatch. cbn zeta.
  destruct (contains (py "application/json") _).
  - destruct (json_loads (Gateway.request_body r)) as [data|e] eqn:Hl.
    + destruct data; try discriminate. cbn. intros [= <-]. left. eauto.
    + destruct e; discriminate.
  - destruct (contains (py "text/plain") _); [|discriminate].
    destruct (utf8_decode (Gateway.request_body r)) as [s|] eqn:Hd;
      [|discriminate].
    cbn. intros [= <-]. right. eauto 6.
Qed.

(** A call of the handler that returns has dispatched and validated the
    request and got through the publish step. *)
Lemma ingest_returns (os : Gateway.environ) (c : Gateway.call)
    (r : Gateway.request) (w w' : list Gateway.event) (v : returned) :
  Gateway.ingest os c r w = (w', Ok v) ->
  exists f,
    Gateway.dispatch c r = Ok f /\
    Gateway.validate f = Ok () /\
    Gateway.publish_or_log os c f w = (w', Ok ()) /\
    v = accepted_return (Gateway.log_id f).
Proof.
  rewrite ingest_unfold.
  destruct (Gateway.dispatch c r) as [f|]; [|discriminate].
  destruct (Gateway.validate f) as [[]|] eqn:Hv; [|discriminate].
  destruct (Gateway.publish_or_log os c f w) as [w1 [[]|]] eqn:Hp;
    [|discriminate].
  intros [= <- <-]. eauto.
Qed.

(** A call that raises before the publish step has done nothing, and a
    call that got to it is not answered 400. *)
Lemma answered_400_did_nothing (os : Gateway.environ) (c : Gateway.call)
    (r : Gateway.request) :
  status (snd (Gateway.serve os c r)) = 400 ->
  fst (Gateway.serve os c r) = [].
Proof.
  unfold Gateway.serve. rewrite ingest_unfold.
  destruct (Gateway.dispatch c r) as [f|e]; [|destruct e; reflexivity].
  destruct (Gateway.validate f) as [[]|e]; [|destruct e; reflexivity].
  destruct (production os) eqn:Hprod.
  - rewrite (publish_or_log_production _ _ _ _ Hprod).
    destruct (json_dumps (Gateway.message f)) as [dumped|e];
      [|destruct e; reflexivity].
    destruct (utf8_encode dumped) as [data|e]; [|destruct e; reflexivity].
    destruct (Gateway.future_result c); [destruct (prints _)|];
      cbn; try destruct (renders _); discriminate.
  - rewrite (publish_or_log_development _ _ _ _ Hprod).
    destruct (prints _); cbn; try destruct (renders _); discriminate.
Qed.

(** What an accepted call has validated and published. *)
Lemma accepted_call_message (os : Gateway.environ) (c : Gateway.call)
    (r : Gateway.request) (evs : list Gateway.event) (v : returned) :
  Gateway.ingest os c r [] = (evs, Ok v) ->
  exists f s,
    Gateway.dispatch c r = Ok f /\
    Gateway.text f = JStr s /\ strip s <> [] /\
    (production os = true ->
     exists dumped data,
       json_dumps (Gateway.message f) = Ok dumped /\
       utf8_encode dumped = Ok data /\
       published evs = [(topic os, data)]).
Proof.
  intros (f & Hd & Hv & Hp & ->)%ingest_returns.
  destruct (validate_ok f Hv) as (Ht & s & Hs & Hblank).
  exists f, s. do 3 (split; [done|]). intros Hprod.
  rewrite (publish_or_log_production _ _ _ _ Hprod) in Hp.
  destruct (json_dumps (Gateway.message f)) as [dumped|] eqn:Hdumps;
    [|discriminate].
  destruct (utf8_encode dumped) as [data|] eqn:Hdata; [|discriminate].
  destruct (Gateway.future_result c); [|discriminate].
  destruct (prints _); [|discriminate].
  injection Hp as <-. exists dumped, data. repeat split; done.
Qed.

End gateway_facts.

(** ** The worker: what [POST /process] answers and stores *)

Section worker_theorems.
Context `{Lib}.

(** C1, as the code behaves.  A push whose JSON body has no ["message"]
    key, or whose decoded payload lacks [tenant_id], [log_id] or [text],
    is answered with status 500, not 400: the [HTTPException] with status
    400 that the handler raises inside its [try] is caught by the handler's
    own [except Exception] clause and raised again with status 500.  The
    push is not acknowledged, so the queue delivers it again; nothing is
    stored. *)
Theorem structural_defect_answered_500 (commit : option N) (body : bytes)
    (w : Worker.world) :
  lacks_message body || lacks_required_field body = true ->
  status (snd (Worker.serve commit body w)) = 500 /\
  acknowledges (snd (Worker.serve commit body w)) = false /\
  Worker.db (fst (Worker.serve commit body w)) = Worker.db w.
Proof.
  intros Hbad.
  destruct (structural_defect_raises commit body w Hbad) as [detail Htry].
  rewrite (process_raises _ _ _ _ _ _ Htry). cbn. auto.
Qed.

(** C4.  Two pushes that carry the same payload, a log entry, each
    answered by a working store: both are answered 200; after each of them
    the document at the reference of [(tenant_id, log_id)], which is
    [tenants/<tenant_id>/processed_logs/<log_id>] for ids without ["/"],
    has the same content apart from [processed_at], which is the time of
    the respective write; the second push replaces that document and adds
    none. *)
Theorem redelivery_overwrites (body1 body2 : bytes) (data : json)
    (e : log_entry) (t1 t2 : N) (w : Worker.world) :
  Worker.decode_payload body1 = Ok data ->
  Worker.decode_payload body2 = Ok data ->
  as_log_entry data = Some e ->
  let first := Worker.serve (Some t1) body1 w in
  let second := Worker.serve (Some t2) body2 (fst first) in
  let ref := entry_ref e in
  status (snd first) = 200 /\ status (snd second) = 200 /\
  (plain_id (entry_tenant e) = true -> plain_id (entry_log e) = true ->
   ref = document_path (entry_tenant e) (entry_log e)) /\
  exists d1 d2,
    Worker.db (fst first) !! ref = Some d1 /\
    Worker.db (fst second) !! ref = Some d2 /\
    content d1 = content d2 /\
    Worker.processed_at d1 = Worker.At t1 /\
    Worker.processed_at d2 = Worker.At t2 /\
    Worker.db (fst second) = <[ref := d2]> (Worker.db w) /\
    dom (Worker.db (fst second)) = dom (Worker.db (fst first)) /\
    size (Worker.db (fst second)) = size (Worker.db (fst first)).
Proof.
  intros H1 H2 He. cbn zeta. unfold Worker.serve.
  rewrite (process_log_entry _ _ _ t1 w H1 He). cbn [fst snd].
  rewrite (process_log_entry _ _ _ t2 _ H2 He). cbn [fst snd].
  split; [reflexivity|]. split; [reflexivity|].
  split; [exact (entry_ref_plain data e He)|].
  unfold processed. cbn [Worker.db].
  exists (sent_document e (Worker.At t1)), (sent_document e (Worker.At t2)).
  rewrite !lookup_insert_eq, insert_insert_eq.
  repeat split; try reflexivity.
  - rewrite !dom_insert_L. set_solver.
  - rewrite !map_size_insert. reflexivity.
Qed.

(** C6.  The redacted text is [Worker.redact] of the text, a function of
    the text alone: two pushes that carry log entries with the same text,
    whatever their tenant, id and source, whatever the store and the log
    they start from and the time of the write, store the same
    [modified_data]. *)
Theorem redaction_depends_on_text_only (body1 body2 : bytes)
    (data1 data2 : json) (e1 e2 : log_entry) (t1 t2 : N)
    (w1 w2 : Worker.world) :
  Worker.decode_payload body1 = Ok data1 ->
  Worker.decode_payload body2 = Ok data2 ->
  as_log_entry data1 = Some e1 ->
  as_log_entry data2 = Some e2 ->
  entry_text e1 = entry_text e2 ->
  exists d1 d2,
    Worker.db (fst (Worker.serve (Some t1) body1 w1)) !! entry_ref e1
      = Some d1 /\
    Worker.db (fst (Worker.serve (Some t2) body2 w2)) !! entry_ref e2
      = Some d2 /\
    Worker.modified_data d1 = Worker.redact (entry_text e1) /\
    Worker.modified_data d1 = Worker.modified_data d2.
Proof.
  intros H1 H2 He1 He2 Htext. unfold Worker.serve.
  rewrite (process_log_entry _ _ _ t1 w1 H1 He1).
  rewrite (process_log_entry _ _ _ t2 w2 H2 He2).
  exists (sent_document e1 (Worker.At t1)), (sent_document e2 (Worker.At t2)).
  cbn [fst processed Worker.db]. rewrite !lookup_insert_eq.
  cbn. rewrite Htext. auto.
Qed.

(** C8.  A push that the handler processes to the end carries a log entry;
    the handler sleeps for the length of the text times 0.05 (the product
    of the length, as a binary64 number, and the binary64 number nearest to
    0.05), then writes, and does nothing else before it logs; the document
    stored has that product as [processing_time_seconds] and the length of
    the text as [text_length]. *)
Theorem delay_precedes_write (commit : option N) (body : bytes)
    (w w' : Worker.world) (r : returned) :
  Worker.process commit body w = (w', Ok r) ->
  exists (data : json) (e : log_entry) (d sent : Worker.processed_log)
         (logged : Worker.event),
    let n := length (entry_text e) in
    Worker.decode_payload body = Ok data /\
    as_log_entry data = Some e /\
    Worker.trace w' =
      Worker.trace w
      ++ [Worker.Sleep (PrimFloat.mul (float_of_len n) 0.05%float);
          Worker.DocumentSet (entry_ref e) sent; logged] /\
    Worker.db w' = <[entry_ref e := d]> (Worker.db w) /\
    Worker.processing_time_seconds d
      = PrimFloat.mul (float_of_len n) 0.05%float /\
    Worker.text_length d = n.
Proof.
  intros (data & e & t & Hd & He & -> & -> & ->)%process_returns.
  exists data, e, (sent_document e (Worker.At t)),
    (sent_document e Worker.SERVER_TIMESTAMP).
  eexists. cbn zeta. repeat split; done.
Qed.

End worker_theorems.

(** ** The gateway: what [POST /ingest] answers and publishes *)

Section gateway_theorems.
Context `{Lib}.

(** C3, as the code behaves.  A request with a non-empty [tenant_id] and a
    non-blank [text], under either encoding, whose publish step does not
    raise, is never answered with status 202.  The handler returns the pair
    of the object [{status: "accepted", log_id}] and 202, and FastAPI
    serialises what a handler returns, here a tuple, as the body: when the
    pair renders, the request is answered with status 200, the default of
    the route, and with the JSON array of the object and the number 202 as
    body; when it does not (a [log_id] that is [NaN], say), it is answered
    with status 500. *)
Theorem accepted_response (os : Gateway.environ) (c : Gateway.call)
    (r : Gateway.request) :
  valid_request c r = true ->
  publish_returns os c r = true ->
  exists f,
    Gateway.dispatch c r = Ok f /\
    snd (Gateway.ingest os c r []) = Ok (accepted_return (Gateway.log_id f)) /\
    (let content :=
       JList [JDict [(py "status", JStr (py "accepted"));
                     (py "log_id", Gateway.log_id f)];
              JInt 202] in
     snd (Gateway.serve os c r) =
       if renders content
       then {| status := 200; body := JsonBody content |}
       else {| status := 500;
               body := TextBody (py "Internal Server Error") |}) /\
    status (snd (Gateway.serve os c r)) <> 202.
Proof.
  unfold valid_request, publish_returns, Gateway.serve.
  rewrite ingest_unfold.
  destruct (Gateway.dispatch c r) as [f|]; [|discriminate].
  intros Hv%valid_fields_validate. rewrite Hv.
  destruct (Gateway.publish_or_log os c f []) as [w' [[]|]]; [|discriminate].
  intros _. exists f. cbn.
  change (jsonable_encoder (accepted_return (Gateway.log_id f)))
    with (JList [JDict [(py "status", JStr (py "accepted"));
                        (py "log_id", Gateway.log_id f)];
                 JInt 202]).
  destruct (renders _); cbn; repeat split; done.
Qed.

(** C9, amended.  The response, status and body, to a request is the same
    in production and with no publisher configured whenever, in each of the
    two, lines 81-87 of the call do not raise if the call gets to them: in
    production the serialisation of the message, the publish and the line
    printed with the message id; with no publisher the line printed with
    the [tenant_id] and the [log_id]. *)
Theorem same_response_unless_publish_fails (os os' : Gateway.environ)
    (c : Gateway.call) (r : Gateway.request) :
  production os = true ->
  production os' = false ->
  publish_step_returns os c r = true ->
  publish_step_returns os' c r = true ->
  snd (Gateway.serve os c r) = snd (Gateway.serve os' c r).
Proof.
  intros _ _. unfold publish_step_returns, Gateway.serve.
  rewrite !ingest_unfold.
  destruct (Gateway.dispatch c r) as [f|]; [|reflexivity].
  destruct (Gateway.validate f) as [[]|]; [|reflexivity].
  destruct (Gateway.publish_or_log os c f []) as [w [[]|]]; [|discriminate].
  destruct (Gateway.publish_or_log os' c f []) as [w' [[]|]];
    [reflexivity|discriminate].
Qed.

(** C10.  When the handler accepts a request, the [text] of the message is
    the text as received: for a request whose content type has
    [application/json], the string the body, a JSON object, has under
    [text]; for any other request, whose content type then has
    [text/plain], the body decoded as UTF-8.  Trimming is only used to test
    it: the text is not blank once trimmed, and it is the untrimmed text
    that goes in the message; in production the bytes published are the
    serialisation of that message. *)
Theorem published_text_is_unchanged (os : Gateway.environ) (c : Gateway.call)
    (r : Gateway.request) (evs : list Gateway.event) (v : returned) :
  Gateway.ingest os c r [] = (evs, Ok v) ->
  let content_type := default (py "") (Gateway.content_type_header r) in
  exists f s,
    Gateway.dispatch c r = Ok f /\
    strip s <> [] /\
    ((contains (py "application/json") content_type = true /\
      exists d,
        json_loads (Gateway.request_body r) = Ok (JDict d) /\
        dict_lookup (py "text") d = Some (JStr s))
     \/
     (contains (py "application/json") content_type = false /\
      contains (py "text/plain") content_type = true /\
      utf8_decode (Gateway.request_body r) = Ok s)) /\
    Gateway.message f =
      JDict [(py "tenant_id", Gateway.tenant_id f);
             (py "log_id", Gateway.log_id f);
             (py "text", JStr s);
             (py "source", Gateway.source f)] /\
    (production os = true ->
     exists dumped data,
       json_dumps (Gateway.message f) = Ok dumped /\
       utf8_encode dumped = Ok data /\
       published evs = [(topic os, data)]).
Proof.
  intros Hret content_type.
  destruct (accepted_call_message os c r evs v Hret)
    as (f & s & Hd & Hs & Hblank & Hpub).
  exists f, s. split; [done|]. split; [done|]. split.
  { destruct (dispatch_ok c r f Hd)
      as [(d & Hjson & Hl & ->)|(x & Hjson & Hplain & Hx & ->)]; cbn in Hs.
    - left. split; [exact Hjson|]. exists d. split; [done|].
      destruct (dict_lookup (py "text") d); cbn in Hs; congruence.
    - right. do 2 (split; [done|]). congruence. }
  split; [|done].
  unfold Gateway.message. rewrite Hs. reflexivity.
Qed.

End gateway_theorems.

(** ** The scenarios, run with the reference codecs *)

#[local] Existing Instance Reference.lib.

Import Scenario.

Lemma decode_push_L1 : Worker.decode_payload push_L1 = Ok payload_L1.
Proof. vm_compute. reflexivity. Qed.

(** C5, as the code behaves.  The JSON entry of tenant [acme] with id [L1]
    and text [call 555-1234] is accepted: the gateway publishes the
    normalized message and the handler returns the pair of
    [{status: "accepted", log_id: "L1"}] and 202, which FastAPI answers
    with status 200 and the two as a JSON array.  The worker, pushed the
    envelope of that message, answers 200 and stores one document, at
    [tenants/acme/processed_logs/L1], whose [modified_data] is
    [call [REDACTED]-1234]. *)
Theorem end_to_end_L1 (t : N) :
  Gateway.serve os_production call_acked request_L1 =
    ([Gateway.Publish (topic os_production) message_L1;
      Gateway.PrintPublished (py "1")],
     {| status := 200;
        body := JsonBody
                  (JList [JDict [(py "status", JStr (py "accepted"));
                                 (py "log_id", JStr (py "L1"))];
                          JInt 202]) |}) /\
  let after := Worker.serve (Some t) push_L1 empty_world in
  let ref := [py "tenants"; py "acme"; py "processed_logs"; py "L1"] in
  status (snd after) = 200 /\
  Worker.modified_data <$> Worker.db (fst after) !! ref
    = Some (py "call [REDACTED]-1234") /\
  dom (Worker.db (fst after)) = {[ref]}.
Proof.
  split; [vm_compute; reflexivity|].
  cbn zeta. unfold Worker.serve.
  rewrite (process_log_entry push_L1 payload_L1 entry_L1 t empty_world
             decode_push_L1 eq_refl).
  cbn [fst snd processed Worker.db]. split; [reflexivity|].
  change (entry_ref entry_L1)
    with [py "tenants"; py "acme"; py "processed_logs"; py "L1"].
  rewrite lookup_insert_eq. split; [vm_compute; reflexivity|].
  rewrite dom_insert_L. cbn. set_solver.
Qed.

(** C2, as the code behaves.  The JSON entry of tenant [acme] with text
    [call 555-1234] and no [log_id] is accepted, and the message the
    gateway publishes for it has a [log_id] that is null: the JSON branch
    takes the [log_id] from the body and nothing checks it, where the
    plain-text branch generates one (here for the entry ["  hello  "]).
    The worker, pushed that message, answers 500 and stores nothing. *)
Theorem accepted_without_log_id :
  Gateway.serve os_production call_acked request_without_log_id =
    ([Gateway.Publish (topic os_production) message_without_log_id;
      Gateway.PrintPublished (py "1")],
     {| status := 200;
        body := JsonBody
                  (JList [JDict [(py "status", JStr (py "accepted"));
                                 (py "log_id", JNull)];
                          JInt 202]) |}) /\
  json_loads message_without_log_id = Ok payload_without_log_id /\
  populated payload_without_log_id = false /\
  Gateway.dispatch call_acked request_padded =
    Ok {| Gateway.tenant_id := JStr (py "acme");
          Gateway.log_id := JStr (Gateway.uuid4 call_acked);
          Gateway.text := JStr (py "  hello  ");
          Gateway.source := JStr (py "text_upload") |} /\
  let after :=
    Worker.serve (Some 7%N) (Reference.push_envelope message_without_log_id)
                 empty_world in
  status (snd after) = 500 /\ Worker.db (fst after) = ∅.
Proof. repeat split; vm_compute; reflexivity. Qed.

(** C7, as the code behaves.  A request that names no tenant is answered
    500 with the plain text of the server error, not 400, when its body is
    JSON but not an object (here the array [[1, 2]], and [null]) or when it
    is plain text that is not UTF-8: [data.get] and [decode] raise before
    the check of the tenant, outside any handler. *)
Theorem missing_tenant_answered_500 :
  let answer :=
    {| status := 500; body := TextBody (py "Internal Server Error") |} in
  Gateway.serve os_production call_acked Scenario2.request_array
    = ([], answer) /\
  Gateway.serve os_production call_acked Scenario2.request_null
    = ([], answer) /\
  Gateway.x_tenant_id Scenario2.request_not_utf8_without_tenant = None /\
  Gateway.serve os_production call_acked
      Scenario2.request_not_utf8_without_tenant
    = ([], answer).
Proof. repeat split; vm_compute; reflexivity. Qed.

(** C9 fails when the publish fails: the same valid request is answered
    500 in production and 200 with no publisher configured. *)
Lemma failed_publish_changes_response :
  production os_production = true /\
  production os_development = false /\
  status (snd (Gateway.serve os_production call_failed request_L1)) = 500 /\
  status (snd (Gateway.serve os_development call_failed request_L1)) = 200.
Proof. repeat split; vm_compute; reflexivity. Qed.

(** *** The theorems at concrete requests *)

Lemma structural_defect_answered_500_witness :
  (lacks_message push_without_message = true /\
   lacks_required_field push_without_tenant = true) /\
  status (snd (Worker.serve None push_without_message empty_world)) = 500 /\
  status (snd (Worker.serve (Some 7%N) push_without_tenant empty_world)) = 500.
Proof.
  split; [split; vm_compute; reflexivity|].
  split.
  - apply (structural_defect_answered_500 None push_without_message
             empty_world).
    vm_compute. reflexivity.
  - apply (structural_defect_answered_500 (Some 7%N) push_without_tenant
             empty_world).
    vm_compute. reflexivity.
Defined.

Lemma redelivery_overwrites_witness :
  let first := Worker.serve (Some 10%N) push_L1 empty_world in
  let second := Worker.serve (Some 20%N) push_L1 (fst first) in
  status (snd first) = 200 /\ status (snd second) = 200 /\
  size (Worker.db (fst second)) = size (Worker.db (fst first)).
Proof.
  destruct (redelivery_overwrites push_L1 push_L1 payload_L1 entry_L1
              10%N 20%N empty_world)
    as (H1 & H2 & _ & d1 & d2 & _ & _ & _ & _ & _ & _ & _ & Hsize);
    [vm_compute; reflexivity ..|].
  auto.
Defined.

Lemma redaction_depends_on_text_only_witness :
  exists d1 d2,
    Worker.db (fst (Worker.serve (Some 10%N) push_L1 empty_world))
      !! document_path (py "acme") (py "L1") = Some d1 /\
    Worker.db (fst (Worker.serve (Some 20%N) push_L2
                      (fst (Worker.serve (Some 10%N) push_L1 empty_world))))
      !! document_path (py "beta") (py "L2") = Some d2 /\
    Worker.modified_data d1 = Worker.redact (py "call 555-1234") /\
    Worker.modified_data d1 = Worker.modified_data d2.
Proof.
  apply (redaction_depends_on_text_only push_L1 push_L2 payload_L1 payload_L2
           entry_L1 entry_L2 10%N 20%N empty_world
           (fst (Worker.serve (Some 10%N) push_L1 empty_world)));
    vm_compute; reflexivity.
Defined.

Lemma delay_precedes_write_witness :
  exists (data : json) (e : log_entry) (d sent : Worker.processed_log)
         (logged : Worker.event),
    let n := length (entry_text e) in
    Worker.decode_payload push_L1 = Ok data /\
    as_log_entry data = Some e /\
    Worker.trace (processed entry_L1 7%N empty_world) =
      Worker.trace empty_world
      ++ [Worker.Sleep (PrimFloat.mul (float_of_len n) 0.05%float);
          Worker.DocumentSet (entry_ref e) sent; logged] /\
    Worker.db (processed entry_L1 7%N empty_world)
      = <[entry_ref e := d]> (Worker.db empty_world) /\
    Worker.processing_time_seconds d
      = PrimFloat.mul (float_of_len n) 0.05%float /\
    Worker.text_length d = n.
Proof.
  apply (delay_precedes_write (Some 7%N) push_L1 empty_world
           (processed entry_L1 7%N empty_world) (processed_return entry_L1)).
  apply (process_log_entry push_L1 payload_L1 entry_L1 7%N empty_world);
    vm_compute; reflexivity.
Defined.

Lemma accepted_response_witness :
  valid_request call_acked request_L1 = true /\
  publish_returns os_production call_acked request_L1 = true /\
  exists f,
    Gateway.dispatch call_acked request_L1 = Ok f /\
    snd (Gateway.ingest os_production call_acked request_L1 [])
      = Ok (accepted_return (Gateway.log_id f)) /\
    (let content :=
       JList [JDict [(py "status", JStr (py "accepted"));
                     (py "log_id", Gateway.log_id f)];
              JInt 202] in
     snd (Gateway.serve os_production call_acked request_L1) =
       if renders content
       then {| status := 200; body := JsonBody content |}
       else {| status := 500;
               body := TextBody (py "Internal Server Error") |}) /\
    status (snd (Gateway.serve os_production call_acked request_L1)) <> 202.
Proof.
  split; [vm_compute; reflexivity|]. split; [vm_compute; reflexivity|].
  apply (accepted_response os_production call_acked request_L1);
    vm_compute; reflexivity.
Defined.

Lemma same_response_unless_publish_fails_witness :
  snd (Gateway.serve os_production call_acked request_L1)
  = snd (Gateway.serve os_development call_acked request_L1) /\
  snd (Gateway.serve os_production call_failed request_without_tenant)
  = snd (Gateway.serve os_development call_failed request_without_tenant).
Proof.
  split.
  - apply (same_response_unless_publish_fails os_production os_development
             call_acked request_L1);
      vm_compute; reflexivity.
  - apply (same_response_unless_publish_fails os_production os_development
             call_failed request_without_tenant);
      vm_compute; reflexivity.
Defined.

Lemma published_text_is_unchanged_witness :
  exists f s,
    Gateway.dispatch call_acked request_padded = Ok f /\
    strip s <> [] /\
    ((contains (py "application/json")
        (default (py "") (Gateway.content_type_header request_padded))
        = true /\
      exists d,
        json_loads (Gateway.request_body request_padded) = Ok (JDict d) /\
        dict_lookup (py "text") d = Some (JStr s))
     \/
     (contains (py "application/json")
        (default (py "") (Gateway.content_type_header request_padded))
        = false /\
      contains (py "text/plain")
        (default (py "") (Gateway.content_type_header request_padded))
        = true /\
      utf8_decode (Gateway.request_body request_padded) = Ok s)) /\
    Gateway.message f =
      JDict [(py "tenant_id", Gateway.tenant_id f);
             (py "log_id", Gateway.log_id f);
             (py "text", JStr s);
             (py "source", Gateway.source f)] /\
    (production os_production = true ->
     exists dumped data,
       json_dumps (Gateway.message f) = Ok dumped /\
       utf8_encode dumped = Ok data /\
       published [Gateway.Publish (topic os_production) message_padded;
                  Gateway.PrintPublished (py "1")]
         = [(topic os_production, data)]).
Proof.
  apply (published_text_is_unchanged os_production call_acked request_padded
           [Gateway.Publish (topic os_production) message_padded;
            Gateway.PrintPublished (py "1")]
           (accepted_return (JStr (Gateway.uuid4 call_acked)))).
  vm_compute. reflexivity.
Defined.

(** The plain-text entry ["  hello  "] is published with the whitespace
    around it. *)
Example padded_text_is_published :
  published (fst (Gateway.serve os_production call_acked request_padded))
    = [(topic os_production, message_padded)] /\
  json_loads message_padded
    = Ok (JDict [(py "tenant_id", JStr (py "acme"));
                 (py "log_id", JStr (Gateway.uuid4 call_acked));
                 (py "text", JStr (py "  hello  "));
                 (py "source", JStr (py "text_upload"))]).
Proof. split; vm_compute; reflexivity. Qed.

(** A whitespace-only text from a known tenant is answered 400, under
    either encoding, and nothing is published. *)
Example blank_text_is_rejected :
  Gateway.serve os_production call_acked
    (post_json "{'tenant_id':'acme','log_id':'L1','text':'   '}")
    = ([], {| status := 400;
              body := JsonBody
                        (JDict [(py "detail",
                                 JStr (py "Missing or empty text"))]) |}) /\
  Gateway.serve os_production call_acked (post_text (Some "acme"%string) "   ")
    = ([], {| status := 400;
              body := JsonBody
                        (JDict [(py "detail",
                                 JStr (py "Missing or empty text"))]) |}).
Proof. split; vm_compute; reflexivity. Qed.

(** An entry whose [log_id] is [NaN] is published, and answered 500: the
    pair the handler returns does not render. *)
Example nan_log_id_is_published_and_answered_500 :
  valid_request call_acked Scenario2.request_nan_log_id = true /\
  publish_returns os_production call_acked Scenario2.request_nan_log_id
    = true /\
  length (published (fst (Gateway.serve os_production call_acked
                            Scenario2.request_nan_log_id))) = 1%nat /\
  snd (Gateway.serve os_production call_acked Scenario2.request_nan_log_id)
    = {| status := 500; body := TextBody (py "Internal Server Error") |}.
Proof. repeat split; vm_compute; reflexivity. Qed.

(** An entry whose [tenant_id] is a lone surrogate is answered 200 in
    production, where the message is serialised with escapes, and 500 with
    no publisher configured, where the line with the [tenant_id] cannot be
    printed. *)
Example unprintable_tenant_changes_response :
  publish_step_returns os_production call_acked
    Scenario2.request_surrogate_tenant = true /\
  publish_step_returns os_development call_acked
    Scenario2.request_surrogate_tenant = false /\
  status (snd (Gateway.serve os_production call_acked
                 Scenario2.request_surrogate_tenant)) = 200 /\
  Gateway.serve os_development call_acked Scenario2.request_surrogate_tenant
    = ([], {| status := 500;
              body := TextBody (py "Internal Server Error") |}).
Proof. repeat split; vm_compute; reflexivity. Qed.

(** An id with a ["/"] in it is not one segment of the reference. *)
Example document_ref_of_split_ids :
  Worker.document_ref (JStr (py "acme")) (JStr (py "L1"))
    = Ok [py "tenants"; py "acme"; py "processed_logs"; py "L1"] /\
  Worker.document_ref (JStr (py "acme/eu")) (JStr (py "L1"))
    = Raise ValueError /\
  Worker.document_ref (JStr (py "acme")) (JStr (py "2024/06/L1"))
    = Ok [py "tenants"; py "acme"; py "processed_logs"; py "2024"; py "06";
          py "L1"].
Proof. repeat split; vm_compute; reflexivity. Qed.

(** The delay of a three-character text is the binary64 product
    [3 * 0.05], which is not the binary64 number nearest to 0.15. *)
Example delay_of_three_characters :
  delay (py "abc") = 0.15000000000000002%float /\
  PrimFloat.eqb (delay (py "abc")) 0.15%float = false.
Proof. split; vm_compute; reflexivity. Qed.

(** ** Further properties of the worker *)

Section worker_outcomes.
Context `{Lib}.

(** The body of the [try], stage by stage. *)
Lemma process_try_unfold (commit : option N) (body : bytes)
    (w : Worker.world) :
  Worker.process_try commit body w =
    match Worker.decode_payload body with
    | Raise e => (w, Raise e)
    | Ok data =>
    match Worker.required_fields data with
    | Raise e => (w, Raise e)
    | Ok f =>
    match py_len (Worker.text f) with
    | Raise e => (w, Raise e)
    | Ok n =>
    let seconds := int_mul_float n 0.05%float in
    match py_replace (Worker.text f) (py "555-") (py "[REDACTED]-") with
    | Raise e =>
        ({| Worker.db := Worker.db w;
            Worker.trace := Worker.trace w ++ [Worker.Sleep seconds] |},
         Raise e)
    | Ok modified =>
    match Worker.document_ref (Worker.tenant_id f) (Worker.log_id f) with
    | Raise e =>
        ({| Worker.db := Worker.db w;
            Worker.trace := Worker.trace w ++ [Worker.Sleep seconds] |},
         Raise e)
    | Ok ref =>
    let data :=
      {| Worker.source := Worker.payload_source f;
         Worker.original_text := Worker.text f;
         Worker.modified_data := modified;
         Worker.processed_at := Worker.SERVER_TIMESTAMP;
         Worker.processing_time_seconds := seconds;
         Worker.text_length := n |} in
    match commit with
    | None =>
        ({| Worker.db := Worker.db w;
            Worker.trace :=
              Worker.trace w
              ++ [Worker.Sleep seconds; Worker.DocumentSet ref data] |},
         Raise GoogleAPICallError)
    | Some t =>
        ({| Worker.db :=
              <[ref := {| Worker.source := Worker.payload_source f;
                          Worker.original_text := Worker.text f;
                          Worker.modified_data := modified;
                          Worker.processed_at := Worker.At t;
                          Worker.processing_time_seconds := seconds;
                          Worker.text_length := n |}]> (Worker.db w);
            Worker.trace :=
              Worker.trace w
              ++ [Worker.Sleep seconds; Worker.DocumentSet ref data;
                  Worker.PrintProcessed (Worker.log_id f)
                    (Worker.tenant_id f) n seconds] |},
         Ok (JDict [(py "status", JStr (py "processed"));
                    (py "log_id", Worker.log_id f);
                    (py "tenant_id", Worker.tenant_id f);
                    (py "processing_time", JFloat seconds)], 200))
    end end end end end end.
Proof.
  unfold Worker.process_try, bind, lift.
  destruct (Worker.decode_payload body) as [data|]; [|reflexivity].
  destruct (Worker.required_fields data) as [f|]; [|reflexivity].
  destruct (py_len (Worker.text f)) as [n|]; [|reflexivity].
  cbn -[Worker.document_ref py_replace].
  destruct (py_replace _ _ _) as [modified|]; [|reflexivity].
  destruct (Worker.document_ref _ _) as [ref|]; [|reflexivity].
  destruct commit as [t|]; cbn; rewrite <- !app_assoc; reflexivity.
Qed.

(** What the body of the [try] can raise once the payload is decoded. *)
Lemma required_fields_raises (data : json) (e : exn) :
  Worker.required_fields data = Raise e ->
  e = AttributeError \/
  e = HTTPException 400 (py "Missing required fields").
Proof.
  unfold Worker.required_fields.
  destruct data; cbn; try (intros [= <-]; auto).
  case_match; [intros [= <-]; auto | discriminate].
Qed.

Lemma py_len_raises (v : json) (e : exn) :
  py_len v = Raise e -> e = TypeError.
Proof. destruct v; cbn; congruence. Qed.

Lemma py_replace_raises (v : json) (old new : pystr) (e : exn) :
  py_replace v old new = Raise e -> e = AttributeError.
Proof. destruct v; cbn; congruence. Qed.

Lemma document_raises (parent : Worker.path) (id : json) (e : exn) :
  Worker.document parent id = Raise e -> e = TypeError \/ e = ValueError.
Proof.
  unfold Worker.document. destruct id; try (intros [= <-]; auto).
  case_match; [discriminate | intros [= <-]; auto].
Qed.

Lemma document_ref_raises (tenant log : json) (e : exn) :
  Worker.document_ref tenant log = Raise e -> e = TypeError \/ e = ValueError.
Proof.
  unfold Worker.document_ref.
  destruct (Worker.document [py "tenants"] tenant) as [ref|e'] eqn:Ht; cbn.
  - apply document_raises.
  - intros [= <-]. eapply document_raises, Ht.
Qed.

(** A decoding error can only come from decoding the body or the
    payload, and then nothing has been done. *)
Lemma process_try_decode_error (commit : option N) (body : bytes)
    (w w1 : Worker.world) :
  Worker.process_try commit body w = (w1, Raise JSONDecodeError) ->
  Worker.decode_payload body = Raise JSONDecodeError /\ w1 = w.
Proof.
  rewrite process_try_unfold.
  destruct (Worker.decode_payload body) as [data|e]; [|intros [= <- <-]; auto].
  destruct (Worker.required_fields data) as [f|e] eqn:Hf.
  2: { intros [= <- ->]. apply required_fields_raises in Hf as [|]; done. }
  destruct (py_len (Worker.text f)) as [n|e] eqn:Hn.
  2: { intros [= <- ->]. apply py_len_raises in Hn. done. }
  cbn zeta.
  destruct (py_replace _ _ _) as [modified|e] eqn:Hm.
  2: { intros [= <- ->]. apply py_replace_raises in Hm. done. }
  destruct (Worker.document_ref _ _) as [ref|e] eqn:Hr.
  2: { intros [= <- ->]. apply document_ref_raises in Hr as [|]; done. }
  destruct commit; discriminate.
Qed.

(** Whatever the body of the [try] raises, the store is as it was. *)
Lemma process_try_raise_db (commit : option N) (body : bytes)
    (w w1 : Worker.world) (e : exn) :
  Worker.process_try commit body w = (w1, Raise e) ->
  Worker.db w1 = Worker.db w.
Proof.
  rewrite process_try_unfold.
  repeat (case_match; try discriminate); intros [= <- <-]; reflexivity.
Qed.

End worker_outcomes.

Section worker_extras.
Context `{Lib}.

(** The three outcomes of a push. *)
Lemma process_outcomes_aux (commit : option N) (body : bytes)
    (w : Worker.world) :
  let w' := fst (Worker.serve commit body w) in
  let response := snd (Worker.serve commit body w) in
  (status response = 200 /\
   exists data e t,
     Worker.decode_payload body = Ok data /\ as_log_entry data = Some e /\
     commit = Some t /\ w' = processed e t w)
  \/
  (status response = 400 /\
   Worker.decode_payload body = Raise JSONDecodeError /\
   w' = {| Worker.db := Worker.db w;
           Worker.trace := Worker.trace w ++ [Worker.PrintJsonDecodeError] |})
  \/
  (status response = 500 /\ acknowledges response = false /\
   Worker.db w' = Worker.db w).
Proof.
  cbn zeta. unfold Worker.serve.
  destruct (Worker.process commit body w) as [w' [r|e]] eqn:Hp.
  - left. split; [reflexivity|].
    apply process_returns in Hp as (data & e & t & ? & ? & ? & ? & ?).
    exists data, e, t. auto.
  - right. revert Hp. unfold Worker.process.
    destruct (Worker.process_try commit body w) as [w1 [r1|e1]] eqn:Htry;
      [discriminate|].
    pose proof (process_try_raise_db _ _ _ _ _ Htry) as Hdb.
    destruct e1;
      try solve [intros [= <- <-]; right; cbn; rewrite Hdb; auto].
    apply process_try_decode_error in Htry as [Hd ->].
    intros [= <- <-]. left. auto.
Qed.

(** X1.  A push has one of three outcomes.  It is answered 200 and the
    document of the log entry it carries is written; or it is answered 400,
    which happens when the body or the payload is not JSON, and nothing is
    done but a log line; or it is answered 500, the push is not
    acknowledged and the store is as it was. *)
Theorem process_outcomes (commit : option N) (body : bytes)
    (w : Worker.world) :
  let w' := fst (Worker.serve commit body w) in
  let response := snd (Worker.serve commit body w) in
  (status response = 200 /\
   exists data e t,
     Worker.decode_payload body = Ok data /\ as_log_entry data = Some e /\
     commit = Some t /\ w' = processed e t w)
  \/
  (status response = 400 /\
   Worker.decode_payload body = Raise JSONDecodeError /\
   w' = {| Worker.db := Worker.db w;
           Worker.trace := Worker.trace w ++ [Worker.PrintJsonDecodeError] |})
  \/
  (status response = 500 /\ acknowledges response = false /\
   Worker.db w' = Worker.db w).
Proof. exact (process_outcomes_aux commit body w). Qed.

(** X2.  The status is 400 exactly when decoding the body or the payload
    raises [JSONDecodeError]; the answer then carries the detail ["Invalid
    JSON in message"], no time is spent sleeping and nothing is stored. *)
Theorem decode_error_answered_400 (commit : option N) (body : bytes)
    (w : Worker.world) :
  (status (snd (Worker.serve commit body w)) = 400 <->
   Worker.decode_payload body = Raise JSONDecodeError) /\
  (Worker.decode_payload body = Raise JSONDecodeError ->
   Worker.serve commit body w =
     ({| Worker.db := Worker.db w;
         Worker.trace := Worker.trace w ++ [Worker.PrintJsonDecodeError] |},
      {| status := 400;
         body := JsonBody
                   (JDict [(py "detail",
                            JStr (py "Invalid JSON in message"))]) |})).
Proof.
  assert (Worker.decode_payload body = Raise JSONDecodeError ->
          Worker.serve commit body w =
            ({| Worker.db := Worker.db w;
                Worker.trace :=
                  Worker.trace w ++ [Worker.PrintJsonDecodeError] |},
             {| status := 400;
                body := JsonBody
                          (JDict [(py "detail",
                                   JStr (py "Invalid JSON in message"))]) |}))
    as Hthen.
  { intros Hd. unfold Worker.serve, Worker.process.
    rewrite process_try_unfold, Hd. reflexivity. }
  split; [split|exact Hthen].
  - intros H400.
    destruct (process_outcomes_aux commit body w)
      as [[H200 _]|[(_ & Hd & _)|[H500 _]]]; [|exact Hd|];
      cbn zeta in *; congruence.
  - intros Hd. rewrite (Hthen Hd). reflexivity.
Qed.

(** X3.  When the store refuses the write of a log entry, the push is
    answered 500 and not acknowledged; the delay has been spent, the write
    has been tried once and nothing is stored. *)
Theorem storage_failure_answered_500 (body : bytes) (data : json)
    (e : log_entry) (w : Worker.world) :
  Worker.decode_payload body = Ok data ->
  as_log_entry data = Some e ->
  Worker.serve None body w =
    ({| Worker.db := Worker.db w;
        Worker.trace :=
          Worker.trace w
          ++ [Worker.Sleep (delay (entry_text e));
              Worker.DocumentSet (entry_ref e)
                (sent_document e Worker.SERVER_TIMESTAMP);
              Worker.PrintProcessingError GoogleAPICallError] |},
     {| status := 500;
        body := JsonBody
                  (JDict [(py "detail",
                           JStr (exn_str GoogleAPICallError))]) |}).
Proof.
  intros Hd He.
  destruct data as [| | | | |? |d]; try discriminate.
  unfold as_log_entry in He.
  destruct (dict_lookup (py "tenant_id") d) as [[| | | |[|a tn]| |]|] eqn:Ht;
    try discriminate.
  destruct (dict_lookup (py "log_id") d) as [[| | | |[|b lg]| |]|] eqn:Hl;
    try discriminate.
  destruct (dict_lookup (py "text") d) as [[| | | |[|c s]| |]|] eqn:Hs;
    try discriminate.
  destruct (Worker.document_ref (JStr (a :: tn)) (JStr (b :: lg)))
    as [ref|] eqn:Href; [|discriminate].
  injection He as <-.
  unfold Worker.serve, Worker.process. rewrite process_try_unfold, Hd.
  unfold Worker.required_fields, py_get. cbn [rbind]. rewrite Ht, Hl, Hs.
  cbn -[Worker.document_ref]. rewrite Href. cbn.
  rewrite <- !app_assoc. reflexivity.
Qed.

(** X4.  Processing a log entry changes the document at its own reference
    and no other.  For ids without ["/"], the documents of any other
    tenant, and the other documents of the same tenant, are as they
    were. *)
Theorem other_documents_untouched (body : bytes) (data : json)
    (e : log_entry) (t : N) (w : Worker.world) :
  Worker.decode_payload body = Ok data ->
  as_log_entry data = Some e ->
  let w' := fst (Worker.serve (Some t) body w) in
  (forall ref : Worker.path,
     ref <> entry_ref e -> Worker.db w' !! ref = Worker.db w !! ref) /\
  (plain_id (entry_tenant e) = true -> plain_id (entry_log e) = true ->
   forall tenant log : pystr,
     (tenant, log) <> (entry_tenant e, entry_log e) ->
     Worker.db w' !! document_path tenant log
     = Worker.db w !! document_path tenant log).
Proof.
  intros Hd He. cbn zeta. unfold Worker.serve.
  rewrite (process_log_entry _ _ _ t w Hd He). cbn [fst processed Worker.db].
  assert (forall ref : Worker.path,
            ref <> entry_ref e ->
            <[entry_ref e := sent_document e (Worker.At t)]> (Worker.db w)
              !! ref = Worker.db w !! ref) as Hframe.
  { intros ref Hne. apply lookup_insert_ne. congruence. }
  split; [exact Hframe|].
  intros Ht Hl tenant log Hne. apply Hframe.
  rewrite (entry_ref_plain data e He Ht Hl). unfold document_path.
  intros [= -> ->]. apply Hne. reflexivity.
Qed.

(** X5.  An envelope whose ["message"] is not an object with a ["data"]
    key is answered 500, not 400: the lookup raises inside the [try].  No
    time is spent sleeping and nothing is stored. *)
Theorem message_without_data_answered_500 (commit : option N)
    (body : bytes) (d : list (pystr * json)) (message : json)
    (w : Worker.world) :
  json_loads body = Ok (JDict d) ->
  dict_lookup (py "message") d = Some message ->
  match message with
  | JDict m => dict_lookup (py "data") m = None
  | _ => True
  end ->
  exists e,
    (e = KeyError \/ e = TypeError) /\
    Worker.serve commit body w =
      ({| Worker.db := Worker.db w;
          Worker.trace := Worker.trace w ++ [Worker.PrintProcessingError e] |},
       {| status := 500;
          body := JsonBody (JDict [(py "detail", JStr (exn_str e))]) |}).
Proof.
  intros Hl Hm Hdata.
  assert (exists e, (e = KeyError \/ e = TypeError) /\
                    Worker.decode_payload body = Raise e) as (e & He & Hd).
  { unfold Worker.decode_payload. rewrite Hl. cbn [rbind py_in py_getitem].
    rewrite Hm. rewrite bool_decide_eq_true_2 by eauto. cbn [negb rbind].
    destruct message as [| | | | | |m]; cbn; eauto.
    rewrite Hdata. eauto. }
  exists e. split; [exact He|].
  unfold Worker.serve, Worker.process. rewrite process_try_unfold, Hd.
  destruct He as [-> | ->]; reflexivity.
Qed.

(** X6.  A payload whose [text] is a non-empty array passes the check of
    the required fields and has a length: the handler sleeps for the
    number of items times 0.05 and only then fails, on [text.replace].  The
    push is answered 500 and nothing is stored. *)
Theorem array_text_sleeps_then_fails (commit : option N) (body : bytes)
    (d : list (pystr * json)) (tenant log item : json) (items : list json)
    (w : Worker.world) :
  Worker.decode_payload body = Ok (JDict d) ->
  dict_lookup (py "tenant_id") d = Some tenant -> truthy tenant = true ->
  dict_lookup (py "log_id") d = Some log -> truthy log = true ->
  dict_lookup (py "text") d = Some (JList (item :: items)) ->
  Worker.serve commit body w =
    ({| Worker.db := Worker.db w;
        Worker.trace :=
          Worker.trace w
          ++ [Worker.Sleep (int_mul_float (S (length items)) 0.05%float);
              Worker.PrintProcessingError AttributeError] |},
     {| status := 500;
        body := JsonBody
                  (JDict [(py "detail", JStr (exn_str AttributeError))]) |}).
Proof.
  intros Hd Ht Tt Hl Tl Hs.
  unfold Worker.serve, Worker.process. rewrite process_try_unfold, Hd.
  unfold Worker.required_fields, py_get. cbn [rbind].
  rewrite Ht, Hl, Hs. cbn [from_option id]. rewrite Tt, Tl. cbn.
  rewrite <- !app_assoc. reflexivity.
Qed.

End worker_extras.

(** ** The redaction *)

Section redaction.

#[local] Arguments py : simpl nomatch.

Lemma replace_from_skip (old new : pystr) (k : nat) (s : pystr) :
  replace_from old new k s = replace_from old new 0 (drop k s).
Proof.
  revert k. induction s as [|c s IH]; intros [|k]; try reflexivity.
  cbn [replace_from drop]. apply IH.
Qed.

Lemma redact_nil : Worker.redact [] = [].
Proof. reflexivity. Qed.

Lemma redact_match (s : pystr) :
  startswith phone_prefix s = true ->
  Worker.redact s = py "[REDACTED]-" ++ Worker.redact (drop 4 s).
Proof.
  unfold Worker.redact, replace, phone_prefix.
  change (py "555-") with [53; 53; 53; 45]%N.
  destruct s as [|c s]; [discriminate|]. intros Hm.
  cbn [replace_from]. change phone_prefix with [53; 53; 53; 45]%N in Hm.
  rewrite Hm. rewrite replace_from_skip. reflexivity.
Qed.

Lemma redact_no_match (c : N) (s : pystr) :
  startswith phone_prefix (c :: s) = false ->
  Worker.redact (c :: s) = c :: Worker.redact s.
Proof.
  unfold Worker.redact, replace, phone_prefix.
  change (py "555-") with [53; 53; 53; 45]%N.
  intros Hm. cbn [replace_from]. rewrite Hm. reflexivity.
Qed.

(** A match is the four characters of the pattern. *)
Lemma startswith_phone_prefix (s : pystr) :
  startswith phone_prefix s = true <->
  exists rest, s = 53%N :: 53%N :: 53%N :: 45%N :: rest.
Proof.
  change phone_prefix with [53; 53; 53; 45]%N. split.
  - destruct s as [|a [|b [|c [|d rest]]]]; cbn [startswith];
      rewrite ?andb_false_r; try discriminate.
    intros (->%N.eqb_eq & (->%N.eqb_eq & (->%N.eqb_eq
            & (->%N.eqb_eq & _)%andb_true_iff)%andb_true_iff)%andb_true_iff
           )%andb_true_iff.
    eauto.
  - intros [rest ->]. reflexivity.
Qed.

(** The first character of the redacted text is the bracket of a
    replacement, or the first character of the text, which then starts no
    match. *)
Lemma redact_head (s : pystr) (x : N) (o : pystr) :
  Worker.redact s = x :: o ->
  (x = 91%N /\ startswith phone_prefix s = true) \/
  (exists rest, s = x :: rest /\ o = Worker.redact rest /\
                startswith phone_prefix s = false).
Proof.
  destruct s as [|c s]; [discriminate|].
  destruct (startswith phone_prefix (c :: s)) eqn:Hm.
  - rewrite (redact_match _ Hm). intros [= <- _]. auto.
  - rewrite (redact_no_match _ _ Hm). intros [= <- <-]. right. eauto.
Qed.

Lemma startswith_redact (c : N) (s : pystr) :
  startswith phone_prefix (c :: Worker.redact s) = true ->
  startswith phone_prefix (c :: s) = true.
Proof.
  intros [rest Hr]%startswith_phone_prefix.
  injection Hr as -> H1.
  apply redact_head in H1 as [[? _]|(s1 & -> & H2 & _)]; [discriminate|].
  symmetry in H2.
  apply redact_head in H2 as [[? _]|(s2 & -> & H3 & _)]; [discriminate|].
  symmetry in H3.
  apply redact_head in H3 as [[? _]|(s3 & -> & _ & _)]; [discriminate|].
  reflexivity.
Qed.

Lemma redact_clean_aux (n : nat) (s : pystr) :
  (length s < n)%nat -> contains phone_prefix (Worker.redact s) = false.
Proof.
  revert s. induction n as [|n IH]; intros s Hn; [lia|].
  destruct s as [|c s]; [reflexivity|].
  destruct (startswith phone_prefix (c :: s)) eqn:Hm.
  - rewrite (redact_match _ Hm).
    apply startswith_phone_prefix in Hm as [rest [= -> ->]].
    cbn [drop]. pose proof (IH rest) as Hrest.
    cbn [length] in Hn. specialize (Hrest ltac:(lia)).
    change phone_prefix with [53; 53; 53; 45]%N in *.
    change (py "[REDACTED]-")
      with [91; 82; 69; 68; 65; 67; 84; 69; 68; 93; 45]%N.
    cbn [app contains startswith N.eqb Pos.eqb andb orb].
    exact Hrest.
  - rewrite (redact_no_match _ _ Hm). cbn [contains].
    rewrite (IH s) by (cbn [length] in Hn; lia). rewrite orb_false_r.
    destruct (startswith phone_prefix (c :: Worker.redact s)) eqn:Hr;
      [|reflexivity].
    apply startswith_redact in Hr. congruence.
Qed.

Lemma redact_clean (s : pystr) :
  contains phone_prefix (Worker.redact s) = false.
Proof. exact (redact_clean_aux (S (length s)) s (Nat.lt_succ_diag_r _)). Qed.

(** X7.  No ["555-"] is left in a redacted text: every occurrence is
    replaced and the replacements make no new one. *)
Theorem redact_leaves_no_phone_prefix (s : pystr) :
  contains (py "555-") (Worker.redact s) = false.
Proof. exact (redact_clean s). Qed.

Lemma redact_clean_text (s : pystr) :
  contains phone_prefix s = false -> Worker.redact s = s.
Proof.
  induction s as [|c s IH]; [reflexivity|].
  cbn [contains]. intros [Hm Hs]%orb_false_iff.
  rewrite (redact_no_match _ _ Hm), (IH Hs). reflexivity.
Qed.

(** X8.  A text with no ["555-"] in it is stored as it is, and only such
    a text: the redaction changes every text that has an occurrence. *)
Theorem redact_changes_only_phone_prefixes (s : pystr) :
  Worker.redact s = s <-> contains (py "555-") s = false.
Proof.
  split; [|apply redact_clean_text].
  intros Hs. rewrite <- Hs. apply redact_clean.
Qed.

(** X9.  Redacting a redacted text changes nothing: a document processed
    again from its own [modified_data] keeps it. *)
Theorem redact_idempotent (s : pystr) :
  Worker.redact (Worker.redact s) = Worker.redact s.
Proof. apply redact_clean_text, redact_clean. Qed.

Lemma redact_length_aux (n : nat) (s : pystr) :
  (length s < n)%nat ->
  length (Worker.redact s) = (length s + 7 * occurrences s)%nat.
Proof.
  revert s. induction n as [|n IH]; intros s Hn; [lia|].
  destruct s as [|c s]; [reflexivity|].
  destruct (startswith phone_prefix (c :: s)) eqn:Hm.
  - rewrite (redact_match _ Hm).
    apply startswith_phone_prefix in Hm as [rest [= -> ->]].
    cbn [drop]. rewrite drop_0. cbn [length] in Hn.
    rewrite length_app, (IH rest) by lia.
    change (length (py "[REDACTED]-")) with 11%nat.
    cbn [length occurrences].
    change (startswith phone_prefix (53 :: 53 :: 53 :: 45 :: rest)%N)
      with true.
    change (startswith phone_prefix (53 :: 53 :: 45 :: rest)%N) with false.
    change (startswith phone_prefix (53 :: 45 :: rest)%N) with false.
    change (startswith phone_prefix (45 :: rest)%N) with false.
    cbv iota. lia.
  - rewrite (redact_no_match _ _ Hm). cbn [length occurrences].
    rewrite Hm, (IH s) by (cbn [length] in Hn; lia). lia.
Qed.

(** X10.  Each occurrence of ["555-"] makes the redacted text seven
    characters longer: the stored [text_length], which is the length of the
    original text, is the length of [modified_data] less seven times the
    number of occurrences. *)
Theorem redact_length (s : pystr) :
  length (Worker.redact s) = (length s + 7 * occurrences s)%nat.
Proof. exact (redact_length_aux (S (length s)) s (Nat.lt_succ_diag_r _)). Qed.

End redaction.

(** ** Further properties of the gateway *)

Section blank_texts.

Lemma lstrip_nil (s : pystr) : lstrip s = [] <-> all_space s = true.
Proof.
  induction s as [|c s IH]; [done|].
  cbn. destruct (isspace c); cbn; [exact IH | done].
Qed.

Lemma lstrip_head (s : pystr) (c : N) (t : pystr) :
  lstrip s = c :: t -> isspace c = false.
Proof.
  induction s as [|a s IH]; [discriminate|].
  cbn. destruct (isspace a) eqn:Ha; [exact IH | congruence].
Qed.

Lemma all_space_rev (s : pystr) : all_space (rev s) = all_space s.
Proof.
  unfold all_space. apply eq_true_iff_eq.
  rewrite !forallb_forall. split; intros Hs x Hx; apply Hs.
  - apply in_rev. rewrite rev_involutive. exact Hx.
  - apply in_rev. exact Hx.
Qed.

(** [text.strip() == ""] holds exactly for the texts made of whitespace
    only. *)
Lemma strip_nil (s : pystr) : strip s = [] <-> all_space s = true.
Proof.
  unfold strip. split.
  - intros Hs. apply (f_equal (@rev N)) in Hs.
    rewrite rev_involutive in Hs. cbn in Hs.
    apply lstrip_nil in Hs. rewrite all_space_rev in Hs.
    destruct (lstrip s) as [|c t] eqn:Hl; [apply lstrip_nil, Hl|].
    apply lstrip_head in Hl. cbn in Hs. rewrite Hl in Hs. discriminate.
  - intros Hs. apply lstrip_nil in Hs. rewrite Hs. reflexivity.
Qed.

End blank_texts.

Section gateway_extras.
Context `{Lib}.

(** X11.  An entry passes the validation exactly when its [tenant_id] is
    truthy and its [text] is a string with a character that is not
    whitespace. *)
Theorem validate_accepts (f : Gateway.fields) :
  Gateway.validate f = Ok () <->
  truthy (Gateway.tenant_id f) = true /\
  exists s, Gateway.text f = JStr s /\ all_space s = false.
Proof.
  split.
  - intros (Ht & s & Hs & Hblank)%validate_ok. split; [done|].
    exists s. split; [done|].
    destruct (all_space s) eqn:Ha; [|done].
    apply strip_nil in Ha. done.
  - intros (Ht & s & Hs & Ha).
    unfold Gateway.validate, Gateway.text_is_blank. rewrite Ht, Hs.
    destruct s as [|c s]; [discriminate|]. cbn [negb truthy].
    rewrite bool_decide_eq_false_2 by done. cbn [negb rbind py_strip].
    rewrite bool_decide_eq_false_2; [reflexivity|].
    intros Hstrip%strip_nil. congruence.
Qed.

(** X12.  A request whose content type, if any, names neither
    [application/json] nor [text/plain] is answered 415 whatever its body
    and headers; nothing is published. *)
Theorem unsupported_media_type (os : Gateway.environ) (c : Gateway.call)
    (r : Gateway.request) :
  let content_type := default (py "") (Gateway.content_type_header r) in
  contains (py "application/json") content_type = false ->
  contains (py "text/plain") content_type = false ->
  Gateway.serve os c r =
    ([], {| status := 415;
            body := JsonBody
                      (JDict [(py "detail",
                               JStr (py "Content-Type must be application/json or text/plain"))]) |}).
Proof.
  cbn zeta. intros Hj Ht. unfold Gateway.serve.
  rewrite ingest_unfold. unfold Gateway.dispatch. rewrite Hj, Ht.
  reflexivity.
Qed.

(** X13.  A JSON request whose body is not JSON is answered 400 with the
    detail ["Invalid JSON"]; nothing is published. *)
Theorem malformed_json_rejected (os : Gateway.environ) (c : Gateway.call)
    (r : Gateway.request) :
  contains (py "application/json")
    (default (py "") (Gateway.content_type_header r)) = true ->
  json_loads (Gateway.request_body r) = Raise JSONDecodeError ->
  Gateway.serve os c r =
    ([], {| status := 400;
            body := JsonBody
                      (JDict [(py "detail", JStr (py "Invalid JSON"))]) |}).
Proof.
  intros Hj Hl. unfold Gateway.serve.
  rewrite ingest_unfold. unfold Gateway.dispatch. rewrite Hj, Hl.
  reflexivity.
Qed.

(** X14.  A JSON request whose body is JSON but not an object (an array, a
    string, a number, [true], [false] or [null]) is answered 500 with the
    plain text of the server error, not 400: [data.get] raises outside any
    handler.  Nothing is published. *)
Theorem json_body_not_an_object (os : Gateway.environ) (c : Gateway.call)
    (r : Gateway.request) (v : json) :
  contains (py "application/json")
    (default (py "") (Gateway.content_type_header r)) = true ->
  json_loads (Gateway.request_body r) = Ok v ->
  (forall d, v <> JDict d) ->
  Gateway.serve os c r =
    ([], {| status := 500; body := TextBody (py "Internal Server Error") |}).
Proof.
  intros Hj Hl Hv. unfold Gateway.serve.
  rewrite ingest_unfold. unfold Gateway.dispatch. rewrite Hj, Hl.
  destruct v; try reflexivity. exfalso. eapply Hv. reflexivity.
Qed.

(** X15.  An entry with a tenant whose [text] is truthy but not a string
    (a number, [true], a non-empty array or object) is answered 500 with
    the plain text of the server error, not 400: [text.strip] raises.
    Nothing is published. *)
Theorem text_not_a_string (os : Gateway.environ) (c : Gateway.call)
    (r : Gateway.request) (f : Gateway.fields) :
  Gateway.dispatch c r = Ok f ->
  truthy (Gateway.tenant_id f) = true ->
  truthy (Gateway.text f) = true ->
  (forall s, Gateway.text f <> JStr s) ->
  Gateway.serve os c r =
    ([], {| status := 500; body := TextBody (py "Internal Server Error") |}).
Proof.
  intros Hd Ht Hx Hs. unfold Gateway.serve.
  rewrite ingest_unfold, Hd.
  unfold Gateway.validate, Gateway.text_is_blank. rewrite Ht, Hx.
  destruct (Gateway.text f); try reflexivity. exfalso. eapply Hs. reflexivity.
Qed.

(** X16.  For a JSON request the [X-Tenant-ID] header and the identifier
    drawn for the call play no part: the tenant and the id are those of the
    body. *)
Theorem json_ignores_tenant_header (os : Gateway.environ)
    (c : Gateway.call) (r : Gateway.request) (header : option pystr)
    (drawn : pystr) :
  contains (py "application/json")
    (default (py "") (Gateway.content_type_header r)) = true ->
  Gateway.serve os
    {| Gateway.uuid4 := drawn;
       Gateway.future_result := Gateway.future_result c |}
    {| Gateway.content_type_header := Gateway.content_type_header r;
       Gateway.x_tenant_id := header;
       Gateway.request_body := Gateway.request_body r |}
  = Gateway.serve os c r.
Proof.
  intros Hj. unfold Gateway.serve. rewrite !ingest_unfold.
  assert (forall c' r',
            Gateway.content_type_header r' = Gateway.content_type_header r ->
            Gateway.request_body r' = Gateway.request_body r ->
            Gateway.dispatch c' r' = Gateway.dispatch c r) as Hsame.
  { intros c' r' Hct Hb. unfold Gateway.dispatch. rewrite Hct, Hb, Hj.
    reflexivity. }
  rewrite (Hsame {| Gateway.uuid4 := drawn;
                    Gateway.future_result := Gateway.future_result c |}
                 {| Gateway.content_type_header :=
                      Gateway.content_type_header r;
                    Gateway.x_tenant_id := header;
                    Gateway.request_body := Gateway.request_body r |}
                 eq_refl eq_refl).
  destruct (Gateway.dispatch c r) as [f|]; [|reflexivity].
  destruct (Gateway.validate f); [|reflexivity].
  destruct (production os) eqn:Hprod.
  - rewrite !(publish_or_log_production _ _ _ _ Hprod). reflexivity.
  - rewrite !(publish_or_log_development _ _ _ _ Hprod). reflexivity.
Qed.

(** X17.  A call publishes at most one message, only in production, only
    to the topic of the project and only the serialisation of an entry
    that has passed the validation. *)
Theorem publishes_validated_message_once (os : Gateway.environ)
    (c : Gateway.call) (r : Gateway.request) :
  published (fst (Gateway.serve os c r)) = [] \/
  (production os = true /\
   exists f dumped data,
     Gateway.dispatch c r = Ok f /\
     Gateway.validate f = Ok () /\
     json_dumps (Gateway.message f) = Ok dumped /\
     utf8_encode dumped = Ok data /\
     published (fst (Gateway.serve os c r)) = [(topic os, data)]).
Proof.
  unfold Gateway.serve. rewrite ingest_unfold.
  destruct (Gateway.dispatch c r) as [f|] eqn:Hd; [|left; reflexivity].
  destruct (Gateway.validate f) as [[]|] eqn:Hv; [|left; reflexivity].
  destruct (production os) eqn:Hprod.
  - rewrite (publish_or_log_production _ _ _ _ Hprod).
    destruct (json_dumps (Gateway.message f)) as [dumped|] eqn:Hdumps;
      [|left; reflexivity].
    destruct (utf8_encode dumped) as [data|] eqn:Hdata; [|left; reflexivity].
    right. split; [reflexivity|]. exists f, dumped, data.
    destruct (Gateway.future_result c); [destruct (prints _)|]; auto.
  - rewrite (publish_or_log_development _ _ _ _ Hprod).
    destruct (prints _); left; reflexivity.
Qed.

(** X18.  When the publish fails in production, the valid request is
    answered 500 with the plain text of the server error, and the message
    has been handed to the publisher once: a client that sends the entry
    again may have it queued twice. *)
Theorem failed_publish_answered_500 (os : Gateway.environ)
    (c : Gateway.call) (r : Gateway.request) (f : Gateway.fields)
    (dumped : pystr) (data : bytes) :
  production os = true ->
  Gateway.dispatch c r = Ok f ->
  Gateway.validate f = Ok () ->
  json_dumps (Gateway.message f) = Ok dumped ->
  utf8_encode dumped = Ok data ->
  Gateway.future_result c = None ->
  Gateway.serve os c r =
    ([Gateway.Publish (topic os) data],
     {| status := 500; body := TextBody (py "Internal Server Error") |}).
Proof.
  intros Hprod Hd Hv Hdumps Hdata Hf. unfold Gateway.serve.
  rewrite ingest_unfold, Hd, Hv, (publish_or_log_production _ _ _ _ Hprod).
  rewrite Hdumps, Hdata, Hf. reflexivity.
Qed.

(** X27.  For a request dispatched under either encoding (a JSON body that
    is an object, or a plain-text body that is UTF-8): a missing or empty
    [tenant_id] is answered 400 with the detail ["Missing tenant_id"],
    whatever the text; with a tenant, a missing, empty or whitespace-only
    [text] is answered 400 with the detail ["Missing or empty text"]; such
    a text is answered 400 in any case.  And a call answered 400, for any
    request, has done nothing: it has published nothing. *)
Theorem invalid_entry_rejected (os : Gateway.environ) (c : Gateway.call)
    (r : Gateway.request) :
  let detail text :=
    {| status := 400; body := JsonBody (JDict [(py "detail", JStr text)]) |} in
  (forall f : Gateway.fields,
     Gateway.dispatch c r = Ok f ->
     (missing_or_empty (Gateway.tenant_id f) = true ->
      Gateway.serve os c r = ([], detail (py "Missing tenant_id"))) /\
     (truthy (Gateway.tenant_id f) = true ->
      missing_or_blank (Gateway.text f) = true ->
      Gateway.serve os c r = ([], detail (py "Missing or empty text"))) /\
     (missing_or_blank (Gateway.text f) = true ->
      fst (Gateway.serve os c r) = [] /\
      status (snd (Gateway.serve os c r)) = 400)) /\
  (status (snd (Gateway.serve os c r)) = 400 ->
   published (fst (Gateway.serve os c r)) = []).
Proof.
  cbn zeta. split.
  - intros f Hd.
    assert (truthy (Gateway.tenant_id f) = false ->
            Gateway.serve os c r =
              ([], {| status := 400;
                      body := JsonBody
                                (JDict [(py "detail",
                                         JStr (py "Missing tenant_id"))]) |}))
      as Htenant.
    { intros Ht. unfold Gateway.serve. rewrite ingest_unfold, Hd.
      unfold Gateway.validate. rewrite Ht. reflexivity. }
    assert (truthy (Gateway.tenant_id f) = true ->
            missing_or_blank (Gateway.text f) = true ->
            Gateway.serve os c r =
              ([], {| status := 400;
                      body := JsonBody
                                (JDict [(py "detail",
                                         JStr (py "Missing or empty text"))])
                   |}))
      as Htext.
    { intros Ht Hx. unfold Gateway.serve. rewrite ingest_unfold, Hd.
      unfold Gateway.validate, Gateway.text_is_blank. rewrite Ht.
      destruct (Gateway.text f) as [| | | |s| |]; try discriminate;
        [reflexivity|].
      cbn in Hx. cbn. destruct s as [|a s]; [reflexivity|].
      cbn [negb rbind py_strip]. rewrite Hx. reflexivity. }
    split; [|split].
    + intros Hm. apply Htenant.
      destruct (Gateway.tenant_id f) as [| | | |[|]| |]; done.
    + exact Htext.
    + intros Hx. destruct (truthy (Gateway.tenant_id f)) eqn:Ht.
      * rewrite (Htext eq_refl Hx). auto.
      * rewrite (Htenant eq_refl). auto.
  - intros H400. rewrite (answered_400_did_nothing os c r H400). reflexivity.
Qed.

End gateway_extras.

(** ** From the gateway to the worker *)

Section pipeline.
Context `{Lib}.

(** What the worker reads in a message built by the gateway. *)
Lemma required_fields_message (f : Gateway.fields) :
  Worker.required_fields (Gateway.message f) =
    if negb (truthy (Gateway.tenant_id f)) || negb (truthy (Gateway.log_id f))
       || negb (truthy (Gateway.text f))
    then Raise (HTTPException 400 (py "Missing required fields"))
    else Ok {| Worker.tenant_id := Gateway.tenant_id f;
               Worker.log_id := Gateway.log_id f;
               Worker.text := Gateway.text f;
               Worker.payload_source := Gateway.source f |}.
Proof. reflexivity. Qed.

(** X19.  A message the gateway has built with a [log_id] that is null or
    empty, as it does for a JSON entry without [log_id], is never
    processed: every push that delivers it is answered 500, whatever the
    store does, and stores nothing. *)
Theorem message_without_log_id_is_never_processed (push : bytes)
    (f : Gateway.fields) (commit : option N) (w : Worker.world) :
  delivers push f ->
  truthy (Gateway.log_id f) = false ->
  Worker.serve commit push w =
    ({| Worker.db := Worker.db w;
        Worker.trace :=
          Worker.trace w
          ++ [Worker.PrintProcessingError
                (HTTPException 400 (py "Missing required fields"))] |},
     {| status := 500;
        body := JsonBody
                  (JDict [(py "detail",
                           JStr (exn_str
                                   (HTTPException 400
                                      (py "Missing required fields"))))]) |}).
Proof.
  intros Hd Hl. apply process_raises.
  rewrite process_try_unfold, Hd, required_fields_message, Hl.
  rewrite orb_true_r. reflexivity.
Qed.

(** X20.  An entry that has passed the validation of the gateway, with a
    tenant and an id that are non-empty strings without ["/"], is
    processed by the worker once its message is delivered and the store
    takes the write: the push is answered 200 and the document at
    [tenants/<tenant_id>/processed_logs/<log_id>] holds the text as
    received, its redaction and the source set by the gateway. *)
Theorem accepted_entry_is_processed (push : bytes) (f : Gateway.fields)
    (tenant log : pystr) (t : N) (w : Worker.world) :
  Gateway.validate f = Ok () ->
  Gateway.tenant_id f = JStr tenant -> plain_id tenant = true ->
  Gateway.log_id f = JStr log -> log <> [] -> plain_id log = true ->
  delivers push f ->
  exists s,
    Gateway.text f = JStr s /\
    status (snd (Worker.serve (Some t) push w)) = 200 /\
    Worker.db (fst (Worker.serve (Some t) push w)) !! document_path tenant log
    = Some {| Worker.source := Gateway.source f;
              Worker.original_text := JStr s;
              Worker.modified_data := Worker.redact s;
              Worker.processed_at := Worker.At t;
              Worker.processing_time_seconds := delay s;
              Worker.text_length := length s |}.
Proof.
  intros Hv Ht Pt Hl Nl Pl Hd.
  destruct (validate_ok f Hv) as (Tt & s & Hs & Hblank).
  exists s. split; [exact Hs|].
  assert (s <> []) as Ns by (intros ->; apply Hblank; reflexivity).
  assert (tenant <> []) as Nt by (intros ->; rewrite Ht in Tt; discriminate).
  destruct s as [|c s]; [done|]. destruct tenant as [|a tenant]; [done|].
  destruct log as [|b log]; [done|].
  assert (as_log_entry (Gateway.message f)
          = Some {| entry_tenant := a :: tenant;
                    entry_log := b :: log;
                    entry_text := c :: s;
                    entry_source := Gateway.source f;
                    entry_ref := document_path (a :: tenant) (b :: log) |})
    as He.
  { unfold Gateway.message. rewrite Ht, Hl, Hs.
    change (as_log_entry _) with
      (match Worker.document_ref (JStr (a :: tenant)) (JStr (b :: log)) with
       | Ok ref =>
           Some {| entry_tenant := a :: tenant;
                   entry_log := b :: log;
                   entry_text := c :: s;
                   entry_source := Gateway.source f;
                   entry_ref := ref |}
       | Raise _ => None
       end).
    rewrite (document_ref_plain _ _ Pt Pl). reflexivity. }
  unfold Worker.serve. rewrite (process_log_entry _ _ _ t w Hd He).
  split; [reflexivity|].
  cbn [fst processed Worker.db entry_ref]. rewrite lookup_insert_eq.
  reflexivity.
Qed.

End pipeline.

(** ** The load test *)

Section load_test.
Context `{Lib}.

Lemma strip_starts_with_letter (c : N) (s : pystr) :
  isspace c = false -> strip (c :: s) <> [].
Proof.
  intros Hc Hs%strip_nil. cbn in Hs. rewrite Hc in Hs. discriminate.
Qed.

(** X21.  Every request the task [ingest_json] posts is a valid entry: if
    the JSON library reads back the body it wrote, the gateway dispatches
    it as JSON, validates it and, unless the publish raises, accepts it
    under the id ["load-<uuid>"] the task made. *)
Theorem load_test_json_is_accepted (os : Gateway.environ) (c : Gateway.call)
    (d : Locust.draw) (r : Gateway.request) :
  (Locust.index d < length Locust.ingest_json_tenants)%nat ->
  Locust.ingest_json d = Ok r ->
  json_loads (Gateway.request_body r) = Ok (Locust.ingest_json_entry d) ->
  valid_request c r = true /\
  (publish_returns os c r = true ->
   snd (Gateway.ingest os c r [])
   = Ok (accepted_return (JStr (py "load-" ++ Locust.uuid4 d)))).
Proof.
  intros Hi Hr Hl.
  assert (Gateway.content_type_header r = Some (py "application/json"))
    as Hct.
  { unfold Locust.ingest_json in Hr.
    destruct (json_dumps _); [|discriminate]. cbn in Hr.
    destruct (utf8_encode _); [|discriminate]. cbn in Hr.
    injection Hr as <-. reflexivity. }
  assert (exists a tenant,
            Locust.random_choice (Locust.index d) Locust.ingest_json_tenants
            = a :: tenant) as (a & tenant & Htenant).
  { destruct (Locust.index d) as [|[|[|i]]]; cbn in Hi; try lia;
      unfold Locust.random_choice, Locust.ingest_json_tenants, py; cbn;
      eauto. }
  assert (Gateway.dispatch c r =
          Ok {| Gateway.tenant_id := JStr (a :: tenant);
                Gateway.log_id := JStr (py "load-" ++ Locust.uuid4 d);
                Gateway.text :=
                  JStr (py "Load test entry with data: "
                        ++ Reference.str_of_Z (Locust.randint d));
                Gateway.source := JStr (py "json") |}) as Hd.
  { unfold Gateway.dispatch. rewrite Hct, Hl.
    unfold Locust.ingest_json_entry. rewrite Htenant. reflexivity. }
  assert (valid_request c r = true) as Hvalid.
  { unfold valid_request. rewrite Hd. unfold valid_fields.
    cbn [Gateway.tenant_id Gateway.text].
    rewrite bool_decide_eq_false_2; [reflexivity|].
    apply (strip_starts_with_letter 76). reflexivity. }
  split; [exact Hvalid|].
  unfold publish_returns. rewrite ingest_unfold, Hd.
  unfold valid_request in Hvalid. rewrite Hd in Hvalid.
  rewrite (valid_fields_validate _ Hvalid).
  destruct (Gateway.publish_or_log os c _ []) as [w' [[]|]];
    [reflexivity|discriminate].
Qed.

(** X22.  Every request the task [ingest_text] posts is a valid entry: if
    the body decodes to the text the task sent, the gateway dispatches it
    as plain text, takes the tenant from the header and, unless the publish
    raises, accepts it under the identifier drawn for the call. *)
Theorem load_test_text_is_accepted (os : Gateway.environ) (c : Gateway.call)
    (d : Locust.draw) :
  (Locust.index d < length Locust.ingest_text_tenants)%nat ->
  utf8_decode (ascii_bytes Locust.ingest_text_data)
    = Ok (py Locust.ingest_text_data) ->
  valid_request c (Locust.ingest_text d) = true /\
  (publish_returns os c (Locust.ingest_text d) = true ->
   snd (Gateway.ingest os c (Locust.ingest_text d) [])
   = Ok (accepted_return (JStr (Gateway.uuid4 c)))).
Proof.
  intros Hi Hu.
  assert (exists a tenant,
            Locust.random_choice (Locust.index d) Locust.ingest_text_tenants
            = a :: tenant) as (a & tenant & Htenant).
  { destruct (Locust.index d) as [|[|i]]; cbn in Hi; try lia;
      unfold Locust.random_choice, Locust.ingest_text_tenants, py; cbn;
      eauto. }
  assert (Gateway.dispatch c (Locust.ingest_text d) =
          Ok {| Gateway.tenant_id := JStr (a :: tenant);
                Gateway.log_id := JStr (Gateway.uuid4 c);
                Gateway.text := JStr (py Locust.ingest_text_data);
                Gateway.source := JStr (py "text_upload") |}) as Hd.
  { unfold Gateway.dispatch, Locust.ingest_text.
    cbn [Gateway.content_type_header Gateway.request_body Gateway.x_tenant_id].
    rewrite Hu, Htenant. reflexivity. }
  assert (valid_request c (Locust.ingest_text d) = true) as Hvalid.
  { unfold valid_request. rewrite Hd. reflexivity. }
  split; [exact Hvalid|].
  unfold publish_returns. rewrite ingest_unfold, Hd.
  unfold valid_request in Hvalid. rewrite Hd in Hvalid.
  rewrite (valid_fields_validate _ Hvalid).
  destruct (Gateway.publish_or_log os c _ []) as [w' [[]|]];
    [reflexivity|discriminate].
Qed.

End load_test.

(** ** More edges *)

Section more_edges.
Context `{Lib}.

(** X23.  A plain-text request whose body is not UTF-8 is answered 500
    with the plain text of the server error, not 400: the decoding raises
    outside any handler.  Nothing is published. *)
Theorem body_not_utf8 (os : Gateway.environ) (c : Gateway.call)
    (r : Gateway.request) :
  let content_type := default (py "") (Gateway.content_type_header r) in
  contains (py "application/json") content_type = false ->
  contains (py "text/plain") content_type = true ->
  utf8_decode (Gateway.request_body r) = Raise UnicodeDecodeError ->
  Gateway.serve os c r =
    ([], {| status := 500; body := TextBody (py "Internal Server Error") |}).
Proof.
  cbn zeta. intros Hj Ht Hu. unfold Gateway.serve.
  rewrite ingest_unfold. unfold Gateway.dispatch. rewrite Hj, Ht, Hu.
  reflexivity.
Qed.

(** X24.  A push whose body is JSON but not an object is answered 500: an
    array or a string without ["message"] raises the 400 that is turned
    into a 500, one with ["message"] in it cannot be indexed by a string,
    and nothing else supports [in].  No time is spent sleeping and nothing
    is stored. *)
Theorem envelope_not_an_object (commit : option N) (body : bytes)
    (envelope : json) (w : Worker.world) :
  json_loads body = Ok envelope ->
  (forall d, envelope <> JDict d) ->
  exists e,
    Worker.serve commit body w =
      ({| Worker.db := Worker.db w;
          Worker.trace := Worker.trace w ++ [Worker.PrintProcessingError e] |},
       {| status := 500;
          body := JsonBody (JDict [(py "detail", JStr (exn_str e))]) |}).
Proof.
  intros Hl Hv.
  assert (exists e, e <> JSONDecodeError /\
                    Worker.decode_payload body = Raise e) as (e & He & Hd).
  { unfold Worker.decode_payload. rewrite Hl. cbn [rbind].
    destruct envelope as [| | | |s|l|d]; cbn [py_in rbind];
      try (exists TypeError; done).
    - destruct (contains (py "message") s); cbn;
        eexists; (split; [|reflexivity]); done.
    - destruct (existsb (eq_str (py "message")) l); cbn;
        eexists; (split; [|reflexivity]); done.
    - exfalso. eapply Hv. reflexivity. }
  exists e. unfold Worker.serve, Worker.process.
  rewrite process_try_unfold, Hd. destruct e; done.
Qed.

(** X25.  A push whose data is not base64 is answered 500, not 400: the
    error of the decoding is not a [JSONDecodeError].  No time is spent
    sleeping and nothing is stored. *)
Theorem data_not_base64 (commit : option N) (body : bytes)
    (d m : list (pystr * json)) (data : json) (w : Worker.world) :
  json_loads body = Ok (JDict d) ->
  dict_lookup (py "message") d = Some (JDict m) ->
  dict_lookup (py "data") m = Some data ->
  b64decode data = Raise BinasciiError ->
  Worker.serve commit body w =
    ({| Worker.db := Worker.db w;
        Worker.trace :=
          Worker.trace w ++ [Worker.PrintProcessingError BinasciiError] |},
     {| status := 500;
        body := JsonBody
                  (JDict [(py "detail", JStr (exn_str BinasciiError))]) |}).
Proof.
  intros Hl Hm Hdata Hb.
  unfold Worker.serve, Worker.process. rewrite process_try_unfold.
  unfold Worker.decode_payload. rewrite Hl. cbn [rbind py_in py_getitem].
  rewrite Hm. rewrite bool_decide_eq_true_2 by eauto.
  cbn [negb rbind py_getitem]. rewrite Hdata. cbn [rbind]. rewrite Hb.
  reflexivity.
Qed.

(** X26.  The gateway accepts a tenant that is not a string (any truthy
    JSON value passes its check), but the worker cannot make a document
    reference of it: the push that delivers such a message is answered 500
    after the delay has been spent, and nothing is stored. *)
Theorem tenant_not_a_string_fails_after_delay (push : bytes)
    (f : Gateway.fields) (commit : option N) (w : Worker.world) :
  Gateway.validate f = Ok () ->
  (forall s, Gateway.tenant_id f <> JStr s) ->
  truthy (Gateway.log_id f) = true ->
  delivers push f ->
  exists s,
    Gateway.text f = JStr s /\
    Worker.serve commit push w =
      ({| Worker.db := Worker.db w;
          Worker.trace :=
            Worker.trace w
            ++ [Worker.Sleep (delay s);
                Worker.PrintProcessingError TypeError] |},
       {| status := 500;
          body := JsonBody (JDict [(py "detail", JStr (exn_str TypeError))])
       |}).
Proof.
  intros Hv Ht Hl Hd.
  destruct (validate_ok f Hv) as (Tt & s & Hs & Hblank).
  exists s. split; [exact Hs|].
  assert (truthy (JStr s) = true) as Ts.
  { destruct s; [exfalso; apply Hblank; reflexivity | reflexivity]. }
  unfold Worker.serve, Worker.process.
  rewrite process_try_unfold, Hd, required_fields_message, Tt, Hl, Hs, Ts.
  cbn [negb orb Worker.text Worker.tenant_id Worker.log_id py_len
       py_replace].
  cbn zeta.
  assert (Worker.document_ref (Gateway.tenant_id f) (Gateway.log_id f)
          = Raise TypeError) as ->.
  { unfold Worker.document_ref, Worker.document.
    destruct (Gateway.tenant_id f); try reflexivity.
    exfalso. eapply Ht. reflexivity. }
  cbn. rewrite <- !app_assoc. reflexivity.
Qed.

End more_edges.

(** *** The further properties at concrete requests *)

Import Scenario2.

Lemma storage_failure_answered_500_witness :
  status (snd (Worker.serve None push_L1 empty_world)) = 500 /\
  Worker.db (fst (Worker.serve None push_L1 empty_world)) = ∅.
Proof.
  rewrite (storage_failure_answered_500 push_L1 payload_L1 entry_L1
             empty_world);
    [split; reflexivity | vm_compute; reflexivity ..].
Defined.

Lemma other_documents_untouched_witness :
  Worker.db (fst (Worker.serve (Some 7%N) push_L1 empty_world))
    !! document_path (py "beta") (py "L1") = None.
Proof.
  destruct (other_documents_untouched push_L1 payload_L1 entry_L1 7%N
              empty_world) as [_ Hplain];
    [vm_compute; reflexivity ..|].
  rewrite (Hplain eq_refl eq_refl (py "beta") (py "L1"));
    [reflexivity | vm_compute; discriminate].
Defined.

Lemma message_without_data_answered_500_witness :
  exists e,
    (e = KeyError \/ e = TypeError) /\
    Worker.serve (Some 7%N) push_without_data empty_world =
      ({| Worker.db := Worker.db empty_world;
          Worker.trace :=
            Worker.trace empty_world ++ [Worker.PrintProcessingError e] |},
       {| status := 500;
          body := JsonBody (JDict [(py "detail", JStr (exn_str e))]) |}).
Proof.
  apply (message_without_data_answered_500 (Some 7%N) push_without_data
           [(py "message", JDict [(py "messageId", JStr (py "1"))])]
           (JDict [(py "messageId", JStr (py "1"))]) empty_world);
    vm_compute; reflexivity.
Defined.

Lemma array_text_sleeps_then_fails_witness :
  Worker.serve (Some 7%N) push_text_list empty_world =
    ({| Worker.db := Worker.db empty_world;
        Worker.trace :=
          Worker.trace empty_world
          ++ [Worker.Sleep (int_mul_float 3 0.05%float);
              Worker.PrintProcessingError AttributeError] |},
     {| status := 500;
        body := JsonBody
                  (JDict [(py "detail", JStr (exn_str AttributeError))]) |}).
Proof.
  apply (array_text_sleeps_then_fails (Some 7%N) push_text_list
           [(py "tenant_id", JStr (py "acme")); (py "log_id", JStr (py "L1"));
            (py "text", JList [JStr (py "a"); JStr (py "b"); JStr (py "c")])]
           (JStr (py "acme")) (JStr (py "L1")) (JStr (py "a"))
           [JStr (py "b"); JStr (py "c")] empty_world);
    vm_compute; reflexivity.
Defined.

Lemma unsupported_media_type_witness :
  status (snd (Gateway.serve os_production call_acked request_xml)) = 415.
Proof.
  rewrite (unsupported_media_type os_production call_acked request_xml);
    [reflexivity | vm_compute; reflexivity ..].
Defined.

Lemma malformed_json_rejected_witness :
  status (snd (Gateway.serve os_production call_acked request_not_json)) = 400.
Proof.
  rewrite (malformed_json_rejected os_production call_acked request_not_json);
    [reflexivity | vm_compute; reflexivity ..].
Defined.

Lemma json_body_not_an_object_witness :
  status (snd (Gateway.serve os_production call_acked request_array)) = 500.
Proof.
  rewrite (json_body_not_an_object os_production call_acked request_array
             (JList [JInt 1; JInt 2]));
    [reflexivity | vm_compute; reflexivity .. | discriminate].
Defined.

Lemma text_not_a_string_witness :
  status (snd (Gateway.serve os_production call_acked request_number_text))
  = 500.
Proof.
  rewrite (text_not_a_string os_production call_acked request_number_text
             fields_number_text);
    [reflexivity | vm_compute; reflexivity .. | discriminate].
Defined.

Lemma json_ignores_tenant_header_witness :
  Gateway.serve os_production
    {| Gateway.uuid4 := py "another";
       Gateway.future_result := Gateway.future_result call_acked |}
    {| Gateway.content_type_header := Gateway.content_type_header request_L1;
       Gateway.x_tenant_id := Some (py "beta");
       Gateway.request_body := Gateway.request_body request_L1 |}
  = Gateway.serve os_production call_acked request_L1.
Proof.
  apply (json_ignores_tenant_header os_production call_acked request_L1
           (Some (py "beta")) (py "another")).
  vm_compute. reflexivity.
Defined.

Lemma failed_publish_answered_500_witness :
  Gateway.serve os_production call_failed request_L1 =
    ([Gateway.Publish (topic os_production) message_L1],
     {| status := 500; body := TextBody (py "Internal Server Error") |}).
Proof.
  apply (failed_publish_answered_500 os_production call_failed request_L1
           fields_L1 dumped_L1 message_L1);
    vm_compute; reflexivity.
Defined.

Lemma invalid_entry_rejected_witness :
  Gateway.serve os_production call_acked request_without_tenant =
    ([], {| status := 400;
            body := JsonBody
                      (JDict [(py "detail", JStr (py "Missing tenant_id"))]) |}).
Proof.
  apply (invalid_entry_rejected os_production call_acked
           request_without_tenant)
    with (f := {| Gateway.tenant_id := JNull;
                  Gateway.log_id := JStr (py "L1");
                  Gateway.text := JStr (py "   ");
                  Gateway.source := JStr (py "json") |});
    vm_compute; reflexivity.
Defined.

Lemma message_without_log_id_is_never_processed_witness :
  status (snd (Worker.serve (Some 7%N) push_without_log_id empty_world)) = 500
  /\ Worker.db (fst (Worker.serve (Some 7%N) push_without_log_id empty_world))
     = ∅.
Proof.
  rewrite (message_without_log_id_is_never_processed push_without_log_id
             fields_without_log_id (Some 7%N) empty_world);
    [split; reflexivity | vm_compute; reflexivity ..].
Defined.

Lemma accepted_entry_is_processed_witness :
  exists s,
    Gateway.text fields_L1 = JStr s /\
    status (snd (Worker.serve (Some 7%N) push_L1 empty_world)) = 200 /\
    Worker.db (fst (Worker.serve (Some 7%N) push_L1 empty_world))
      !! document_path (py "acme") (py "L1")
    = Some {| Worker.source := Gateway.source fields_L1;
              Worker.original_text := JStr s;
              Worker.modified_data := Worker.redact s;
              Worker.processed_at := Worker.At 7%N;
              Worker.processing_time_seconds := delay s;
              Worker.text_length := length s |}.
Proof.
  apply (accepted_entry_is_processed push_L1 fields_L1 (py "acme") (py "L1")
           7%N empty_world);
    try (vm_compute; reflexivity).
  vm_compute. discriminate.
Defined.

Lemma load_test_json_is_accepted_witness :
  valid_request call_acked
    (post (Some "application/json"%string) None body_1) = true /\
  (publish_returns os_production call_acked
     (post (Some "application/json"%string) None body_1) = true ->
   snd (Gateway.ingest os_production call_acked
          (post (Some "application/json"%string) None body_1) [])
   = Ok (accepted_return (JStr (py "load-" ++ Locust.uuid4 draw_1)))).
Proof.
  apply (load_test_json_is_accepted os_production call_acked draw_1
           (post (Some "application/json"%string) None body_1));
    [vm_compute; lia | vm_compute; reflexivity ..].
Defined.

Lemma load_test_text_is_accepted_witness :
  valid_request call_acked (Locust.ingest_text draw_1) = true /\
  (publish_returns os_production call_acked (Locust.ingest_text draw_1) = true
   -> snd (Gateway.ingest os_production call_acked
             (Locust.ingest_text draw_1) [])
      = Ok (accepted_return (JStr (Gateway.uuid4 call_acked)))).
Proof.
  apply (load_test_text_is_accepted os_production call_acked draw_1);
    [vm_compute; lia | vm_compute; reflexivity].
Defined.

Lemma body_not_utf8_witness :
  status (snd (Gateway.serve os_production call_acked request_not_utf8))
  = 500.
Proof.
  rewrite (body_not_utf8 os_production call_acked request_not_utf8);
    [reflexivity | vm_compute; reflexivity ..].
Defined.

Lemma envelope_not_an_object_witness :
  exists e,
    Worker.serve (Some 7%N) push_array empty_world =
      ({| Worker.db := Worker.db empty_world;
          Worker.trace :=
            Worker.trace empty_world ++ [Worker.PrintProcessingError e] |},
       {| status := 500;
          body := JsonBody (JDict [(py "detail", JStr (exn_str e))]) |}).
Proof.
  apply (envelope_not_an_object (Some 7%N) push_array
           (JList [JStr (py "message")]) empty_world);
    [vm_compute; reflexivity | discriminate].
Defined.

Lemma data_not_base64_witness :
  status (snd (Worker.serve (Some 7%N) push_not_base64 empty_world)) = 500.
Proof.
  rewrite (data_not_base64 (Some 7%N) push_not_base64
             [(py "message", JDict [(py "data", JStr (py "abc"))])]
             [(py "data", JStr (py "abc"))] (JStr (py "abc")) empty_world);
    [reflexivity | vm_compute; reflexivity ..].
Defined.

Lemma tenant_not_a_string_fails_after_delay_witness :
  exists s,
    Gateway.text fields_number_tenant = JStr s /\
    Worker.serve (Some 7%N) push_number_tenant empty_world =
      ({| Worker.db := Worker.db empty_world;
          Worker.trace :=
            Worker.trace empty_world
            ++ [Worker.Sleep (delay s);
                Worker.PrintProcessingError TypeError] |},
       {| status := 500;
          body := JsonBody (JDict [(py "detail", JStr (exn_str TypeError))])
       |}).
Proof.
  apply (tenant_not_a_string_fails_after_delay push_number_tenant
           fields_number_tenant (Some 7%N) empty_world);
    try (vm_compute; reflexivity).
  discriminate.
Defined.

(** The probes return a [dict], which is the body of their response; the
    two services answer [GET /health] alike and differ on [GET /] by the
    name of the service. *)
Example probes :
  respond_dict Gateway.health
    = {| status := 200; body := JsonBody (JDict [(py "status", JStr (py "ok"))]) |}
  /\ respond_dict Worker.health = respond_dict Gateway.health
  /\ dict_set (py "service") (JStr (py "log-processor-worker"))
       match Gateway.root with JDict d => d | _ => [] end
     = match Worker.root with JDict d => d | _ => [] end.
Proof. repeat split; vm_compute; reflexivity. Qed.
